(** * BlockBase: the TTL cache over the Firebase real-time database

    A shallow embedding of [src/Collections.ts]: the cache node class
    [Collection], the helper [objectToCollections] and the store controller
    [RealTimeDB], followed by the properties of the specification that were
    checked against them.

    Conventions of the embedding.
    - An [async] function is a [Task]: a function of the [World] returning an
      [Outcome] and the next world.  A task runs from its call to its
      settlement; [Suspended] is the outcome of a task that stopped at an
      [await] on a promise that is still pending.
    - The world holds the wall clock read by [Date.now()], the transport
      behind [http.request] (an oracle giving, for the history so far and a
      request, the response and the time it takes) and a log that records
      every request sent and every write to the fields [cache] and
      [expiresAt] of a node, in program order.
    - A field that was never assigned reads [undefined]: [cache] and
      [expiresAt] are options, [None] standing for [undefined].
    - Built-ins of the JavaScript runtime ([JSON.parse], [JSON.stringify],
      template-literal conversion, [encodeURIComponent], [String.trim]) are
      the fields of the class [Runtime]; every theorem holds for every
      runtime, the closed examples use [sample_runtime].
    - Objects are passed by value: a method takes the receiver and returns
      the receiver after the call.  No property below depends on two
      references to one node. *)

From Stdlib Require Import ZArith String Ascii List Bool Lia.
From stdpp Require Import base option gmap strings list pretty.
Import ListNotations.

Local Open Scope Z_scope.
Local Open Scope string_scope.

(** ** JSON values *)

#[local] Set Warnings "-register-all,-clear-no-such-hyp".

(** The values [JSON.parse] produces.  Numbers are modelled by integers: the
    only property of a number the code inspects is whether it is zero. *)
Inductive JSON : Type :=
| JNull
| JBool (b : bool)
| JNumber (n : Z)
| JString (s : string)
| JArray (items : list JSON)
| JObject (props : list (string * JSON)).

(** [if (v)]: JavaScript truthiness of a possibly absent value. *)
Definition truthy (v : option JSON) : bool :=
  match v with
  | None => false
  | Some JNull => false
  | Some (JBool b) => b
  | Some (JNumber n) => negb (Z.eqb n 0)
  | Some (JString s) => negb (String.eqb s "")
  | Some (JArray _) => true
  | Some (JObject _) => true
  end.

(** [typeof v === "object" && v !== null] *)
Definition is_object (v : JSON) : bool :=
  match v with
  | JArray _ | JObject _ => true
  | _ => false
  end.

(** Own enumerable properties, in the order [Object.keys] lists them; the
    properties of an array are its indices. *)
Fixpoint index_from (i : nat) (items : list JSON) : list (string * JSON) :=
  match items with
  | [] => []
  | v :: rest => (pretty i, v) :: index_from (S i) rest
  end.

Definition Object_entries (v : JSON) : list (string * JSON) :=
  match v with
  | JObject props => props
  | JArray items => index_from 0 items
  | _ => []
  end.

Definition Object_keys (v : JSON) : list string := (Object_entries v).*1.

(** [object[key]] *)
Fixpoint assoc (key : string) (props : list (string * JSON)) : option JSON :=
  match props with
  | [] => None
  | (k, v) :: rest => if String.eqb k key then Some v else assoc key rest
  end.

Definition Object_get (v : JSON) (key : string) : option JSON :=
  assoc key (Object_entries v).

(** ** The runtime and the transport *)

Class Runtime : Type := {
  JSON_parse : string -> option JSON;        (* [None]: throws SyntaxError *)
  JSON_stringify : JSON -> string;
  String_of : JSON -> string;                (* the conversion in `${v}` *)
  encodeURIComponent : string -> string;
  trim : string -> string
}.

Inductive Exn : Type :=
| Error (message : string)
| SyntaxError (input : string).

Record HttpRequest : Type := {
  uri : string;
  method : string;
  request_body : option string;
  headers : list (string * string)
}.

Record HttpResponse : Type := {
  status : Z;
  body : string
}.

Inductive Event : Type :=
| Sent (r : HttpRequest)
| WroteCache (path : string) (v : option JSON)
| WroteExpiresAt (path : string) (t : Z).

Record World : Type := {
  clock : Z;
  transport : list Event -> HttpRequest -> HttpResponse * N;
  log : list Event
}.

Inductive Outcome (A : Type) : Type :=
| Returned (a : A)
| Threw (e : Exn)
| Suspended.
Arguments Returned {A} a.
Arguments Threw {A} e.
Arguments Suspended {A}.

Definition Task (A : Type) : Type := World -> Outcome A * World.

Definition ret {A} (a : A) : Task A := fun w => (Returned a, w).

Definition throw {A} (e : Exn) : Task A := fun w => (Threw e, w).

Definition bind {A B} (t : Task A) (k : A -> Task B) : Task B :=
  fun w =>
    match t w with
    | (Returned a, w') => k a w'
    | (Threw e, w') => (Threw e, w')
    | (Suspended, w') => (Suspended, w')
    end.

Notation "'let*' x ':=' t 'in' k" := (bind t (fun x => k))
  (at level 10, x pattern, t at level 100, k at level 200).

(** [Date.now()] *)
Definition Date_now : Task Z := fun w => (Returned (clock w), w).

Definition record (e : Event) : Task unit :=
  fun w => (Returned tt,
            {| clock := clock w; transport := transport w; log := log w ++ [e] |}).

(** [http.request(r)] up to the point where the request has left. *)
Definition http_send (r : HttpRequest) : Task unit := record (Sent r).

(** The [await] on the promise of [http.request(r)]: the response arrives
    and the clock has moved by the time it took. *)
Definition http_await (r : HttpRequest) : Task HttpResponse :=
  fun w =>
    let '(response, took) := transport w (log w) r in
    (Returned response,
     {| clock := clock w + Z.of_N took; transport := transport w; log := log w |}).

Inductive Promise : Type :=
| Pending
| Fulfilled
| Rejected (e : Exn).

(** [await p] for a promise of type [Promise<void>]. *)
Definition await (p : Promise) : Task unit :=
  match p with
  | Fulfilled => ret tt
  | Rejected e => throw e
  | Pending => fun w => (Suspended, w)
  end.

(** The world [w] once [events] were logged and [took] ms went by. *)
Definition after (w : World) (events : list Event) (took : N) : World :=
  {| clock := clock w + Z.of_N took;
     transport := transport w;
     log := log w ++ events |}.

(** The world [w] once [events] were logged, no time gone by. *)
Definition logged (w : World) (events : list Event) : World :=
  {| clock := clock w; transport := transport w; log := log w ++ events |}.

(** The world [w] once an awaited answer took [took] ms to arrive. *)
Definition later (w : World) (took : N) : World :=
  {| clock := clock w + Z.of_N took; transport := transport w; log := log w |}.

(** What the transport answers when [r] is sent in [w] and awaited next. *)
Definition reply (w : World) (r : HttpRequest) : HttpResponse * N :=
  transport w (log w ++ [Sent r]) r.

(** The requests of a log, oldest first. *)
Definition requests (l : list Event) : list HttpRequest :=
  omap (fun e => match e with Sent r => Some r | _ => None end) l.

(** ** The connection data of a controller *)

(** The fields of [RealTimeDB] a node reaches through its back reference
    [this.db]: it reads [ttl] and calls [sendRequest], which reads the name
    and the secret. *)
Record Connection : Type := {
  databaseSecret : string;
  databaseName : string;
  ttl : Z
}.

Definition QueryOptions : Type := list (string * string).

(** The fields of the class [Collection]. *)
Record Collection : Type := {
  cache : option JSON;
  path : string;
  db : Connection;
  expiresAt : option Z;
  ready : Promise
}.

Abbreviation CollectionMap := (gmap string Collection).

Section WithRuntime.
Context `{Runtime}.

Definition join_with (sep : string) (parts : list string) : string :=
  String.concat sep parts.

(** [RealTimeDB.sendRequest], the request it hands to [http.request]. *)
Definition build_request (db : Connection) (path method : string)
    (options : QueryOptions) (body : option string) : HttpRequest :=
  let optionsString :=
    join_with "&"
      (map (fun '(key, value) =>
              encodeURIComponent key ++ "=" ++ encodeURIComponent value) options) in
  let queryString :=
    if String.eqb optionsString "" then "" else "&" ++ optionsString in
  let uri :=
    "https://" ++ databaseName db ++ ".firebaseio.com/" ++ path
      ++ ".json?auth=" ++ databaseSecret db ++ queryString in
  {| uri := uri;
     method := method;
     request_body :=
       match body with
       | Some b => if String.eqb b "" then None else Some b
       | None => None
       end;
     headers := [("Content-Type", "application/json")] |}.

Definition sendRequest (db : Connection) (path method : string)
    (options : QueryOptions) (body : option string) : Task HttpResponse :=
  let request := build_request db path method options body in
  let* _ := http_send request in
  http_await request.

(** [JSON.parse(text)] *)
Definition parse (text : string) : Task JSON :=
  match JSON_parse text with
  | Some v => ret v
  | None => throw (SyntaxError text)
  end.

(** ** Collection, the cache node *)

(** The assignments to the two mutable fields; each is logged. *)
Definition write_cache (c : Collection) (v : option JSON) : Task Collection :=
  let* _ := record (WroteCache (path c) v) in
  ret {| cache := v; path := path c; db := db c;
         expiresAt := expiresAt c; ready := ready c |}.

Definition write_expiresAt (c : Collection) (t : Z) : Task Collection :=
  let* _ := record (WroteExpiresAt (path c) t) in
  ret {| cache := cache c; path := path c; db := db c;
         expiresAt := Some t; ready := ready c |}.

Definition with_ready (c : Collection) (p : Promise) : Collection :=
  {| cache := cache c; path := path c; db := db c;
     expiresAt := expiresAt c; ready := p |}.

(** The request of [updateCache]. *)
Definition fetch_request (c : Collection) : HttpRequest :=
  build_request (db c) (path c) "Get" [] None.

(** [updateCache] after its [await]: lines 30 to 39.  The two branches on
    the type of the body make the same assignment. *)
Definition updateCache_resume (c : Collection) (response : HttpResponse)
    : Task Collection :=
  if negb (Z.eqb (status response) 200) then ret c
  else
    let* body := parse (body response) in
    let* c := (if is_object body
               then write_cache c (Some body)
               else write_cache c (Some body)) in
    let* now := Date_now in
    write_expiresAt c (now + ttl (db c)).

Definition updateCache (c : Collection) : Task Collection :=
  let* response := sendRequest (db c) (path c) "Get" [] None in
  updateCache_resume c response.

(** [JSON.stringify(this.cache)]: [undefined] for an [undefined] cache. *)
Definition stringify_cache (v : option JSON) : option string :=
  JSON_stringify <$> v.

Definition updateDatabase (c : Collection) : Task unit :=
  let* _ := sendRequest (db c) (path c) "Put" [] (stringify_cache (cache c)) in
  ret tt.

(** [Date.now() > this.expiresAt]; the comparison with [undefined] is
    false. *)
Definition expired (now : Z) (expiresAt : option Z) : bool :=
  match expiresAt with
  | Some t => Z.ltb t now
  | None => false
  end.

Definition Collection_get (c : Collection) (forceRefresh : bool)
    : Task (option JSON * Collection) :=
  let* _ := await (ready c) in
  let* now := Date_now in
  let* c := (if expired now (expiresAt c) || forceRefresh
             then updateCache c else ret c) in
  ret (cache c, c).

(** What a caller of [get] sees once a refresh has ended as [r]: the value
    the refresh left in the node. *)
Definition value_after (r : Outcome Collection * World)
    : Outcome (option JSON * Collection) * World :=
  (match fst r with
   | Returned c => Returned (cache c, c)
   | Threw e => Threw e
   | Suspended => Suspended
   end, snd r).

Definition Collection_set (c : Collection) (data : JSON) : Task Collection :=
  let* _ := updateDatabase c in
  write_cache c (Some data).

(** The constructor.  Without data it calls [updateCache], which runs up to
    its [await]: the request has left and [ready] is the pending promise of
    that call. *)
Definition Collection_new (path : string) (db : Connection)
    (cacheData : option JSON) : Task Collection :=
  let c := {| cache := None; path := path; db := db;
              expiresAt := None; ready := Pending |} in
  if truthy cacheData then
    let* c := write_cache c cacheData in
    let* now := Date_now in
    let* c := write_expiresAt c (now + ttl db) in
    ret (with_ready c Fulfilled)
  else
    let* _ := http_send (fetch_request c) in
    ret c.

(** The response to the constructor's fetch arrives: the rest of
    [updateCache] runs and settles [ready].  An exception of that call
    rejects [ready]; nobody else sees it. *)
Definition Collection_settle (c : Collection) : Task Collection :=
  fun w =>
    match ready c with
    | Pending =>
        match (let* response := http_await (fetch_request c) in
               updateCache_resume c response) w with
        | (Returned c', w') => (Returned (with_ready c' Fulfilled), w')
        | (Threw e, w') => (Returned (with_ready c (Rejected e)), w')
        | (Suspended, w') => (Suspended, w')
        end
    | _ => (Returned c, w)
    end.

(** The node [c] holding [b], fresh from the instant [now]. *)
Definition refreshed (c : Collection) (b : JSON) (now : Z) : Collection :=
  {| cache := Some b; path := path c; db := db c;
     expiresAt := Some (now + ttl (db c)); ready := ready c |}.

(** The node [c] holding [v], nothing else changed. *)
Definition holding (c : Collection) (v : option JSON) : Collection :=
  {| cache := v; path := path c; db := db c;
     expiresAt := expiresAt c; ready := ready c |}.

(** A caller that reads the node again and again without forcing a
    refresh, letting [pause] ms go by before each read. *)
Definition sleep (pause : N) : Task unit :=
  fun w => (Returned tt, after w [] pause).

Fixpoint get_repeatedly (pauses : list N) (c : Collection)
    : Task (list (option JSON) * Collection) :=
  match pauses with
  | [] => ret ([], c)
  | pause :: rest =>
      let* _ := sleep pause in
      let* vc := Collection_get c false in
      let* vs := get_repeatedly rest (snd vc) in
      ret (fst vc :: fst vs, snd vs)
  end.

(** ** objectToCollections *)

(** The loop of [objectToCollections] over the keys still to visit. *)
Fixpoint collect (keys : list string) (object : JSON) (db : Connection)
    (collectionsMap : CollectionMap) : Task CollectionMap :=
  match keys with
  | [] => ret collectionsMap
  | key :: rest =>
      let path := key in
      let cacheData := Object_get object key in
      let* collection := Collection_new path db cacheData in
      collect rest object db (<[path := collection]> collectionsMap)
  end.

Definition objectToCollections (object : JSON) (db : Connection)
    : Task CollectionMap :=
  collect (Object_keys object) object db ∅.

(** ** RealTimeDB, the store controller *)

(** What [cachedCollections] holds under a path and what [get] returns: the
    map built by [objectToCollections] or the parsed body itself. *)
Inductive Cached : Type :=
| CachedMap (collections : CollectionMap)
| CachedScalar (v : JSON).

(** The field [cache] of the class is assigned the empty object and never
    used; it is left out. *)
Record RealTimeDB : Type := {
  connection : Connection;
  readyPromise : Promise;
  cachedCollections : gmap string Cached
}.

Definition quoted (s : string) : string :=
  String "034" (s ++ String "034" "").

(** The request of [initialize]: a shallow read of the root. *)
Definition validation_request (db : Connection) : HttpRequest :=
  build_request db "" "Get" [("shallow", "true")] None.

(** [this.readyResolver()] *)
Definition resolve (p : Promise) : Promise :=
  match p with
  | Pending => Fulfilled
  | _ => p
  end.

(** [initialize] after its [await]: lines 98 to 116. *)
Definition initialize_resume (d : RealTimeDB) (response : HttpResponse)
    : Task RealTimeDB :=
  let* body := parse (body response) in
  if negb (Z.eqb (status response) 200) then
    if Z.eqb (status response) 404 then
      throw (Error ("[RealTimeDB] Failed To Find Database: "
                      ++ quoted (databaseName (connection d))))
    else if Z.eqb (status response) 401 then
      throw (Error ("[RealTimeDB] Permission Denied To The Database: "
                      ++ quoted (databaseName (connection d))))
    else
      throw (Error ("[RealTimeDB] Error Validating Database Info: "
                      ++ String_of body))
  else
    ret {| connection := connection d;
           readyPromise := resolve (readyPromise d);
           cachedCollections := cachedCollections d |}.

Definition initialize (d : RealTimeDB) : Task RealTimeDB :=
  let* response :=
    sendRequest (connection d) "" "Get" [("shallow", "true")] None in
  initialize_resume d response.

(** The constructor: [initialize] runs up to its [await] and the promise it
    returns is dropped.  [ttl] is [None] when the argument is left out. *)
Definition RealTimeDB_new (name secret : string) (ttl : option Z)
    : Task RealTimeDB :=
  let db := {| databaseSecret := trim secret;
               databaseName := trim name;
               ttl := default 300000 ttl |} in
  let* _ := http_send (validation_request db) in
  ret {| connection := db; readyPromise := Pending; cachedCollections := ∅ |}.

(** The response to the validation request arrives: the rest of
    [initialize] runs.  The result is the controller afterwards and the
    state of the promise of the [initialize()] call, which nothing holds. *)
Definition RealTimeDB_settle (d : RealTimeDB) : Task (RealTimeDB * Promise) :=
  fun w =>
    match (let* response := http_await (validation_request (connection d)) in
           initialize_resume d response) w with
    | (Returned d', w') => (Returned (d', Fulfilled), w')
    | (Threw e, w') => (Returned (d, Rejected e), w')
    | (Suspended, w') => (Suspended, w')
    end.

(** [onReady()] without a callback. *)
Definition onReady (d : RealTimeDB) : Task unit :=
  await (readyPromise d).

Definition RealTimeDB_get (d : RealTimeDB) (path : string)
    : Task (option Cached * RealTimeDB) :=
  match cachedCollections d !! path with
  | Some hit => ret (Some hit, d)
  | None =>
      let* response := sendRequest (connection d) path "Get" [] None in
      if negb (Z.eqb (status response) 200) then ret (None, d)
      else
        let* body := parse (body response) in
        let* collection :=
          (if is_object body
           then let* m := objectToCollections body (connection d) in
                ret (CachedMap m)
           else ret (CachedScalar body)) in
        ret (Some collection,
             {| connection := connection d;
                readyPromise := readyPromise d;
                cachedCollections := <[path := collection]> (cachedCollections d) |})
  end.

(** [onReady(callback)]: the callback, a synchronous function, is called
    once the barrier is satisfied. *)
Definition onReady_then (d : RealTimeDB) (callback : Task unit) : Task unit :=
  let* _ := await (readyPromise d) in
  callback.

(** The node the constructor of [Collection] leaves for the data [v] at the
    instant [now]. *)
Definition constructed_node (p : string) (d : Connection) (v : option JSON)
    (now : Z) : Collection :=
  if truthy v then
    {| cache := v; path := p; db := d;
       expiresAt := Some (now + ttl d); ready := Fulfilled |}
  else
    {| cache := None; path := p; db := d;
       expiresAt := None; ready := Pending |}.

(** The keys of [object] whose value the constructor does not take for
    data, in the order of [Object.keys]. *)
Definition unseeded_keys (object : JSON) : list string :=
  filter (fun key => truthy (Object_get object key) = false) (Object_keys object).

End WithRuntime.

(** * Firebase.ts: the controller without a cache *)

Module Firebase.

(** The fields of the class [RealTimeDB] of [src/Firebase.ts]. *)
Record RealTimeDB : Type := {
  databaseSecret : string;
  databaseName : string;
  _ready : bool
}.

(** [ReadyEventSignal], with the controller it was built for. *)
Inductive Signal : Type :=
| ReadyEventSignal (rtdb : RealTimeDB).

(** Besides the world of the transport, what the class writes to: the
    console and the signals handed to [emit].  The class [EventEmitter] is
    not part of [src]; a call of [emit] is recorded and taken to return. *)
Record Session : Type := {
  world : World;
  console : list string;
  emitted : list Signal
}.

Definition Run (A : Type) : Type := Session -> Outcome A * Session.

Definition done {A} (a : A) : Run A := fun s => (Returned a, s).

Definition fail {A} (e : Exn) : Run A := fun s => (Threw e, s).

Definition andThen {A B} (t : Run A) (k : A -> Run B) : Run B :=
  fun s =>
    match t s with
    | (Returned a, s') => k a s'
    | (Threw e, s') => (Threw e, s')
    | (Suspended, s') => (Suspended, s')
    end.

Notation "'do*' x ':=' t 'in' k" := (andThen t (fun x => k))
  (at level 10, x pattern, t at level 100, k at level 200).

(** A task on the world of the transport, run inside a session. *)
Definition lift {A} (t : Task A) : Run A :=
  fun s =>
    let '(o, w) := t (world s) in
    (o, {| world := w; console := console s; emitted := emitted s |}).

(** [console.log(text)] *)
Definition console_log (text : string) : Run unit :=
  fun s => (Returned tt,
            {| world := world s; console := console s ++ [text];
               emitted := emitted s |}).

(** [this.emit(signal)] *)
Definition emit (signal : Signal) : Run unit :=
  fun s => (Returned tt,
            {| world := world s; console := console s;
               emitted := emitted s ++ [signal] |}).

Definition not_ready : Exn := Error "[RealTimeDB] Database isnt Ready".

Section WithRuntime.
Context `{Runtime}.

(** [sendRequest], the request it hands to [http.request]: the options go
    into the query string as they are. *)
Definition build_request (db : RealTimeDB) (path method : string)
    (options : QueryOptions) (body : option string) : HttpRequest :=
  let optionsString :=
    String.concat "&"
      (map (fun '(key, value) => key ++ "=" ++ value) options) in
  let queryString :=
    if String.eqb optionsString "" then "" else "&" ++ optionsString in
  let uri :=
    "https://" ++ databaseName db ++ ".firebaseio.com/" ++ path
      ++ ".json?auth=" ++ databaseSecret db ++ queryString in
  {| uri := uri;
     method := method;
     request_body :=
       match body with
       | Some b => if String.eqb b "" then None else Some b
       | None => None
       end;
     headers := [("Content-Type", "application/json")] |}.

Definition sendRequest (db : RealTimeDB) (path method : string)
    (options : QueryOptions) (body : option string) : Run HttpResponse :=
  let request := build_request db path method options body in
  lift (let* _ := http_send request in http_await request).

(** [get(path, options)]; [options] is [None] when left out. *)
Definition get (db : RealTimeDB) (path : string) (options : option QueryOptions)
    : Run (option JSON) :=
  if negb (_ready db) then fail not_ready
  else
    do* response := sendRequest db path "Get" (default [] options) None in
    if negb (Z.eqb (status response) 200) then done None
    else
      do* _ := console_log (body response) in
      match JSON_parse (body response) with
      | Some body => done (Some body)
      | None => fail (SyntaxError (body response))
      end.

(** The text [set] sends for [data]: lines 113 to 117. *)
Definition dataString (data : JSON) : string :=
  match data with
  | JString s => s
  | JNumber _ | JBool _ => String_of data
  | _ => JSON_stringify data
  end.

Definition set (db : RealTimeDB) (path : string) (data : JSON)
    (options : option QueryOptions) : Run bool :=
  if negb (_ready db) then fail not_ready
  else
    do* response :=
      sendRequest db path "Put" (default [] options) (Some (dataString data)) in
    if negb (Z.eqb (status response) 200) then done false
    else done true.

(** The request of [validate]: a shallow read of the root. *)
Definition validation_request (db : RealTimeDB) : HttpRequest :=
  build_request db "" "Get" [("shallow", "true")] None.

(** [validate] after its [await]: lines 38 to 58. *)
Definition validate_resume (db : RealTimeDB) (response : HttpResponse)
    : Run RealTimeDB :=
  match JSON_parse (body response) with
  | None => fail (SyntaxError (body response))
  | Some body =>
      if negb (Z.eqb (status response) 200) then
        if Z.eqb (status response) 404 then
          fail (Error ("[RealTimeDB] Failed To Find Database: "
                         ++ quoted (databaseName db)))
        else if Z.eqb (status response) 401 then
          fail (Error ("[RealTimeDB] Permission Denied To The Database: "
                         ++ quoted (databaseName db)))
        else
          fail (Error ("[RealTimeDB] Error Validating Database Info: "
                         ++ String_of body))
      else
        let db := {| databaseSecret := databaseSecret db;
                     databaseName := databaseName db;
                     _ready := true |} in
        do* _ := emit (ReadyEventSignal db) in
        done db
  end.

Definition validate (db : RealTimeDB) : Run RealTimeDB :=
  do* response := sendRequest db "" "Get" [("shallow", "true")] None in
  validate_resume db response.

(** The constructor: [validate] runs up to its [await] and the promise it
    returns is dropped. *)
Definition new (name secret : string) : Run RealTimeDB :=
  let db := {| databaseSecret := trim secret;
               databaseName := trim name;
               _ready := false |} in
  do* _ := lift (http_send (validation_request db)) in
  done db.

(** The response to the validation request arrives: the rest of [validate]
    runs.  The result is the controller afterwards and the state of the
    promise of the [validate()] call. *)
Definition settle (db : RealTimeDB) : Run (RealTimeDB * Promise) :=
  fun s =>
    match (do* response := lift (http_await (validation_request db)) in
           validate_resume db response) s with
    | (Returned db', s') => (Returned (db', Fulfilled), s')
    | (Threw e, s') => (Returned (db, Rejected e), s')
    | (Suspended, s') => (Suspended, s')
    end.

End WithRuntime.

End Firebase.

(** ** A runtime and worlds for the closed examples *)

Module Sample.

Definition q (s : string) : string := quoted s.

Definition steve_text : string := "{" ++ q "name" ++ ":" ++ q "Steve" ++ "}".
Definition users_text : string := "{" ++ q "steve" ++ ":" ++ steve_text ++ "}".
Definition counters_text : string := "{" ++ q "visits" ++ ":0}".

Definition steve_json : JSON := JObject [("name", JString "Steve")].
Definition users_json : JSON := JObject [("steve", steve_json)].
Definition counters_json : JSON := JObject [("visits", JNumber 0)].

(** [JSON.parse] on the texts the examples use; any other text is taken to
    be malformed. *)
Definition parse_table : list (string * JSON) :=
  [ ("null", JNull); ("0", JNumber 0); ("1", JNumber 1); ("2", JNumber 2);
    (q "Steve", JString "Steve"); (q "oops", JString "oops");
    (steve_text, steve_json); (users_text, users_json);
    (counters_text, counters_json) ].

Fixpoint stringify (v : JSON) : string :=
  match v with
  | JNull => "null"
  | JBool b => if b then "true" else "false"
  | JNumber n => pretty n
  | JString s => q s
  | JArray items => "[" ++ String.concat "," (map stringify items) ++ "]"
  | JObject props =>
      "{" ++ String.concat ","
               (map (fun kv => q (fst kv) ++ ":" ++ stringify (snd kv)) props)
          ++ "}"
  end.

Definition to_text (v : JSON) : string :=
  match v with
  | JNull => "null"
  | JBool b => if b then "true" else "false"
  | JNumber n => pretty n
  | JString s => s
  | JArray _ => ""
  | JObject _ => "[object Object]"
  end.

(** The built-ins on the inputs of the examples: texts of the table, values
    without characters to escape, URI components made of letters, names
    without surrounding white space, no array converted to text. *)
Definition sample_runtime : Runtime := {|
  JSON_parse := fun text => assoc text parse_table;
  JSON_stringify := stringify;
  String_of := to_text;
  encodeURIComponent := fun s => s;
  trim := fun s => s
|}.

#[local] Existing Instance sample_runtime.

Definition conn : Connection :=
  {| databaseSecret := "abc"; databaseName := "proj-default-rtdb"; ttl := 300000 |}.

Definition url (path : string) : string :=
  "https://proj-default-rtdb.firebaseio.com/" ++ path ++ ".json?auth=abc".

(** A remote store given by the body under each URI; a request for another
    URI is answered 404.  Every answer takes 5 ms. *)
Definition serve (store : list (string * string)) (code : Z)
    : list Event -> HttpRequest -> HttpResponse * N :=
  fun _ r =>
    match List.find (fun entry => String.eqb (fst entry) (uri r)) store with
    | Some (_, text) => ({| status := code; body := text |}, 5%N)
    | None => ({| status := 404; body := "null" |}, 5%N)
    end.

Definition store : list (string * string) :=
  [ (url "" ++ "&shallow=true", "null");
    (url "users", users_text);
    (url "users/steve/name", q "Steve");
    (url "counters", counters_text);
    (url "count", "2") ].

(** The store answers with status 200. *)
Definition online (now : Z) : World :=
  {| clock := now; transport := serve store 200; log := [] |}.

(** The store answers every request with status 500. *)
Definition failing (now : Z) : World :=
  {| clock := now; transport := serve store 500; log := [] |}.

(** Every request is answered 404: the database does not exist. *)
Definition missing (now : Z) : World :=
  {| clock := now; transport := serve [] 404; log := [] |}.

(** Only the validation request is refused, with status 401. *)
Definition refused (now : Z) : World :=
  {| clock := now;
     transport := fun l r =>
       if String.eqb (uri r) (url "" ++ "&shallow=true")
       then ({| status := 401; body := q "oops" |}, 5%N)
       else serve store 200 l r;
     log := [] |}.

(** A node that holds the number 1, fresh until time 1000. *)
Definition count_node : Collection :=
  {| cache := Some (JNumber 1); path := "count"; db := conn;
     expiresAt := Some 1000; ready := Fulfilled |}.

(** A controller whose validation has succeeded, nothing read yet. *)
Definition controller : RealTimeDB :=
  {| connection := conn; readyPromise := Fulfilled; cachedCollections := ∅ |}.

(** The controller as the constructor leaves it. *)
Definition new_controller : RealTimeDB :=
  {| connection := conn; readyPromise := Pending; cachedCollections := ∅ |}.

Definition get_request (p : string) : HttpRequest :=
  {| uri := url p; method := "Get"; request_body := None;
     headers := [("Content-Type", "application/json")] |}.

Definition put_request (p text : string) : HttpRequest :=
  {| uri := url p; method := "Put"; request_body := Some text;
     headers := [("Content-Type", "application/json")] |}.

Definition validation : HttpRequest :=
  {| uri := url "" ++ "&shallow=true"; method := "Get"; request_body := None;
     headers := [("Content-Type", "application/json")] |}.

(** A node whose first fetch failed: nothing held, [expiresAt] unset. *)
Definition unset_node : Collection :=
  {| cache := None; path := "count"; db := conn;
     expiresAt := None; ready := Fulfilled |}.

(** The world [refused 0] once the constructor of the controller has run. *)
Definition constructed : World := logged (refused 0) [Sent validation].

End Sample.

(** ** More worlds, for the further properties *)

Module MoreSamples.
Import Sample.

#[local] Existing Instance sample_runtime.

(** The sample store with one more entry, whose text is not JSON. *)
Definition broken_store : list (string * string) :=
  (url "broken", "{") :: store.

Definition garbled (now : Z) : World :=
  {| clock := now; transport := serve broken_store 200; log := [] |}.

(** A node built without data for the path "broken", its GET sent. *)
Definition broken_node : Collection :=
  {| cache := None; path := "broken"; db := conn;
     expiresAt := None; ready := Pending |}.


(** [count_node] after a refresh answered with 2 at time 5. *)
Definition count_node_refreshed : Collection :=
  {| cache := Some (JNumber 2); path := "count"; db := conn;
     expiresAt := Some 300005; ready := Fulfilled |}.

(** The controller of [Firebase.ts] as its constructor leaves it, and once
    it is ready. *)
Definition legacy_new : Firebase.RealTimeDB :=
  {| Firebase.databaseSecret := "abc";
     Firebase.databaseName := "proj-default-rtdb";
     Firebase._ready := false |}.

Definition legacy_ready : Firebase.RealTimeDB :=
  {| Firebase.databaseSecret := "abc";
     Firebase.databaseName := "proj-default-rtdb";
     Firebase._ready := true |}.

(** A session that starts in the world [w] with nothing on the console. *)
Definition session (w : World) : Firebase.Session :=
  {| Firebase.world := w; Firebase.console := []; Firebase.emitted := [] |}.

End MoreSamples.

(** * Properties *)

Local Open Scope list_scope.

Section Properties.
Context `{Runtime}.

(** ** Running the primitives *)

Lemma bind_returned {A B} (t : Task A) (k : A -> Task B) (w : World)
    (a : A) (w' : World) :
  t w = (Returned a, w') -> bind t k w = k a w'.
Proof. intros Ht. unfold bind. now rewrite Ht. Qed.

Lemma bind_threw {A B} (t : Task A) (k : A -> Task B) (w : World)
    (e : Exn) (w' : World) :
  t w = (Threw e, w') -> bind t k w = (Threw e, w').
Proof. intros Ht. unfold bind. now rewrite Ht. Qed.

Lemma after_after (w : World) (e1 e2 : list Event) (t1 t2 : N) :
  after (after w e1 t1) e2 t2 = after w (e1 ++ e2) (t1 + t2).
Proof.
  unfold after; cbn. f_equal; [lia | now rewrite app_assoc].
Qed.

Lemma requests_app (l1 l2 : list Event) :
  requests (l1 ++ l2) = requests l1 ++ requests l2.
Proof. unfold requests. apply omap_app. Qed.

Lemma sendRequest_run (d : Connection) (p m : string) (o : QueryOptions)
    (b : option string) (w : World) :
  let r := build_request d p m o b in
  sendRequest d p m o b w = (Returned (fst (reply w r)), after w [Sent r] (snd (reply w r))).
Proof.
  cbn. unfold sendRequest, bind, http_send, http_await, record, reply, after. cbn.
  destruct (transport w (log w ++ [Sent (build_request d p m o b)])
              (build_request d p m o b)) as [response took].
  reflexivity.
Qed.

Lemma updateCache_failed (c : Collection) (w : World) :
  let r := fetch_request c in
  status (fst (reply w r)) <> 200 ->
  updateCache c w = (Returned c, after w [Sent r] (snd (reply w r))).
Proof.
  cbn. intros Hs. unfold updateCache, bind. rewrite sendRequest_run.
  unfold updateCache_resume.
  destruct (Z.eqb_spec (status (fst (reply w (build_request (db c) (path c) "Get" [] None)))) 200)
    as [E|E]; [contradiction|]. reflexivity.
Qed.

Lemma updateCache_succeeded (c : Collection) (w : World) (b : JSON) :
  let r := fetch_request c in
  let now := clock w + Z.of_N (snd (reply w r)) in
  status (fst (reply w r)) = 200 ->
  JSON_parse (body (fst (reply w r))) = Some b ->
  updateCache c w =
    (Returned (refreshed c b now),
     after w [Sent r; WroteCache (path c) (Some b);
              WroteExpiresAt (path c) (now + ttl (db c))] (snd (reply w r))).
Proof.
  cbn. intros Hs Hp. unfold updateCache, bind. rewrite sendRequest_run.
  unfold updateCache_resume, fetch_request in *. rewrite Hs. cbn.
  unfold parse, bind. rewrite Hp. cbn.
  destruct (is_object b); cbn;
    unfold refreshed, after; cbn; rewrite <- !app_assoc; reflexivity.
Qed.

Lemma updateCache_malformed (c : Collection) (w : World) :
  let r := fetch_request c in
  status (fst (reply w r)) = 200 ->
  JSON_parse (body (fst (reply w r))) = None ->
  updateCache c w =
    (Threw (SyntaxError (body (fst (reply w r)))), after w [Sent r] (snd (reply w r))).
Proof.
  cbn. intros Hs Hp. unfold updateCache, bind. rewrite sendRequest_run.
  unfold updateCache_resume, fetch_request in *. rewrite Hs. cbn.
  unfold parse, bind. rewrite Hp. reflexivity.
Qed.

(** ** The cache node *)

Lemma Collection_get_fresh (c : Collection) (w : World) :
  ready c = Fulfilled ->
  expired (clock w) (expiresAt c) = false ->
  Collection_get c false w = (Returned (cache c, c), w).
Proof.
  intros Hr He. unfold Collection_get, bind. rewrite Hr. cbn.
  rewrite He. reflexivity.
Qed.

Lemma Collection_get_refresh (c : Collection) (w : World) (forceRefresh : bool) :
  ready c = Fulfilled ->
  expired (clock w) (expiresAt c) || forceRefresh = true ->
  Collection_get c forceRefresh w = value_after (updateCache c w).
Proof.
  intros Hr He. unfold Collection_get, bind, value_after. rewrite Hr. cbn.
  rewrite He. destruct (updateCache c w) as [[c'|e|] w']; reflexivity.
Qed.

Lemma Collection_get_pending (c : Collection) (w : World) (forceRefresh : bool) :
  ready c = Pending ->
  Collection_get c forceRefresh w = (Suspended, w).
Proof.
  intros Hr. unfold Collection_get, bind. rewrite Hr. reflexivity.
Qed.

Lemma updateCache_requests (c : Collection) (w : World) :
  requests (log (snd (updateCache c w))) = requests (log w) ++ [fetch_request c].
Proof.
  destruct (Z.eq_dec (status (fst (reply w (fetch_request c)))) 200) as [Hs|Hs].
  - destruct (JSON_parse (body (fst (reply w (fetch_request c))))) as [b|] eqn:Hp.
    + rewrite (updateCache_succeeded c w b Hs Hp). cbn. now rewrite requests_app.
    + rewrite (updateCache_malformed c w Hs Hp). cbn. now rewrite requests_app.
  - rewrite (updateCache_failed c w Hs). cbn. now rewrite requests_app.
Qed.

Lemma expired_spec (now : Z) (e : option Z) :
  expired now e = true <-> exists t, e = Some t /\ t < now.
Proof.
  unfold expired. destruct e as [t|].
  - rewrite Z.ltb_lt. split; [eauto | intros (t' & [= ->] & Hlt); exact Hlt].
  - split; [discriminate | intros (t' & [=] & _)].
Qed.

(** C8. A refresh answered with a status other than 200 returns normally
    and leaves the node as it was: nothing is written and no error reaches
    the caller.  A refresh answered 200 with a body [b] that parses stores
    [b] and then sets [expiresAt] to the time of the answer plus [ttl]; the
    log shows the write of [expiresAt] after the write of the value.  When
    the body does not parse the refresh throws before either write. *)
Theorem refresh_swallows_failure (c : Collection) :
  let r := fetch_request c in
  (forall w, status (fst (reply w r)) <> 200 ->
     updateCache c w = (Returned c, after w [Sent r] (snd (reply w r))))
  /\ (forall w b,
       status (fst (reply w r)) = 200 ->
       JSON_parse (body (fst (reply w r))) = Some b ->
       let now := clock w + Z.of_N (snd (reply w r)) in
       updateCache c w =
         (Returned {| cache := Some b; path := path c; db := db c;
                      expiresAt := Some (now + ttl (db c)); ready := ready c |},
          after w [Sent r; WroteCache (path c) (Some b);
                   WroteExpiresAt (path c) (now + ttl (db c))] (snd (reply w r))))
  /\ (forall w,
       status (fst (reply w r)) = 200 ->
       JSON_parse (body (fst (reply w r))) = None ->
       updateCache c w =
         (Threw (SyntaxError (body (fst (reply w r)))),
          after w [Sent r] (snd (reply w r)))).
Proof.
  cbn. split; [|split].
  - intros w Hs. now apply updateCache_failed.
  - intros w b Hs Hp. now apply updateCache_succeeded.
  - intros w Hs Hp. now apply updateCache_malformed.
Qed.

(** C6. On a node whose readiness barrier is satisfied, a [get] at a time
    later than [expiresAt], or with [forceRefresh], is one refresh followed
    by the return of the value the refresh left: exactly one request, the
    GET for the node's path, is sent; the stale value comes back when the
    answer is not 200 and the parsed body when it is.  A [get] at a time up
    to [expiresAt] without [forceRefresh] sends nothing, writes nothing and
    returns the cached value. *)
Theorem get_refreshes_iff_stale (c : Collection) (w : World) (forceRefresh : bool) :
  ready c = Fulfilled ->
  let r := fetch_request c in
  ((exists t, expiresAt c = Some t /\ t < clock w) \/ forceRefresh = true ->
     Collection_get c forceRefresh w = value_after (updateCache c w)
     /\ requests (log (snd (Collection_get c forceRefresh w)))
        = requests (log w) ++ [r]
     /\ (status (fst (reply w r)) <> 200 ->
         fst (Collection_get c forceRefresh w) = Returned (cache c, c))
     /\ (forall b, status (fst (reply w r)) = 200 ->
         JSON_parse (body (fst (reply w r))) = Some b ->
         exists c', fst (Collection_get c forceRefresh w) = Returned (Some b, c')
                    /\ cache c' = Some b))
  /\ ((exists t, expiresAt c = Some t /\ clock w <= t) /\ forceRefresh = false ->
      Collection_get c forceRefresh w = (Returned (cache c, c), w)).
Proof.
  intros Hr r. split.
  - intros Hstale.
    assert (Hgo : expired (clock w) (expiresAt c) || forceRefresh = true).
    { destruct Hstale as [Ht| ->]; [|apply orb_true_r].
      apply orb_true_iff. left. now apply expired_spec. }
    pose proof (Collection_get_refresh c w forceRefresh Hr Hgo) as Hget.
    split; [exact Hget|]. rewrite Hget. split; [|split].
    + unfold value_after. cbn. apply updateCache_requests.
    + intros Hs. unfold value_after. now rewrite (updateCache_failed c w Hs).
    + intros b Hs Hp. unfold value_after.
      rewrite (updateCache_succeeded c w b Hs Hp). cbn. eauto.
  - intros [(t & Ht & Hle) ->]. apply Collection_get_fresh; [exact Hr|].
    rewrite Ht. cbn. apply Z.ltb_ge. exact Hle.
Qed.

(** C9. A refresh answered with a status other than 200 leaves both the
    value and [expiresAt] as they were.  So when the node was expired, the
    [get] that ran the failed refresh returns the node unchanged, and a
    [get] without [forceRefresh] at any later time, the very next one
    included, sends the GET for the node's path again. *)
Theorem failed_refresh_stays_expired (c : Collection) (w : World) (t : Z) :
  ready c = Fulfilled ->
  expiresAt c = Some t ->
  t < clock w ->
  let r := fetch_request c in
  status (fst (reply w r)) <> 200 ->
  let w1 := after w [Sent r] (snd (reply w r)) in
  updateCache c w = (Returned c, w1)
  /\ Collection_get c false w = (Returned (cache c, c), w1)
  /\ forall w2, clock w1 <= clock w2 ->
       requests (log (snd (Collection_get c false w2))) = requests (log w2) ++ [r].
Proof.
  intros Hr He Hlt r Hs w1.
  pose proof (updateCache_failed c w Hs) as Hu. fold r in Hu. fold w1 in Hu.
  assert (Hstale : forall w', clock w <= clock w' ->
            expired (clock w') (expiresAt c) || false = true).
  { intros w' Hle. rewrite He. cbn. rewrite orb_false_r. apply Z.ltb_lt. lia. }
  split; [exact Hu|]. split.
  - rewrite (Collection_get_refresh c w false Hr (Hstale w (Z.le_refl _))).
    rewrite Hu. reflexivity.
  - intros w2 Hle.
    assert (Hle' : clock w <= clock w2).
    { subst w1. cbn in Hle. lia. }
    rewrite (Collection_get_refresh c w2 false Hr (Hstale w2 Hle')).
    unfold value_after. cbn. apply updateCache_requests.
Qed.

Lemma Collection_set_run (c : Collection) (v : JSON) (w : World) :
  let r := build_request (db c) (path c) "Put" [] (stringify_cache (cache c)) in
  Collection_set c v w =
    (Returned (holding c (Some v)),
     after w [Sent r; WroteCache (path c) (Some v)] (snd (reply w r))).
Proof.
  cbn. unfold Collection_set, updateDatabase, bind. rewrite sendRequest_run.
  cbn. unfold holding, after. cbn. rewrite <- !app_assoc. reflexivity.
Qed.

Lemma Collection_new_truthy (p : string) (d : Connection) (v : option JSON)
    (w : World) :
  truthy v = true ->
  Collection_new p d v w =
    (Returned {| cache := v; path := p; db := d;
                 expiresAt := Some (clock w + ttl d); ready := Fulfilled |},
     logged w [WroteCache p v; WroteExpiresAt p (clock w + ttl d)]).
Proof.
  intros Hv. unfold Collection_new. rewrite Hv.
  unfold bind, write_cache, write_expiresAt, record, Date_now, ret, with_ready, logged.
  cbn. rewrite <- !app_assoc. reflexivity.
Qed.

Lemma Collection_new_falsy (p : string) (d : Connection) (v : option JSON)
    (w : World) :
  truthy v = false ->
  let c := {| cache := None; path := p; db := d;
              expiresAt := None; ready := Pending |} in
  Collection_new p d v w = (Returned c, logged w [Sent (fetch_request c)]).
Proof.
  intros Hv. cbn. unfold Collection_new. rewrite Hv. reflexivity.
Qed.

Lemma Collection_settle_failed (c : Collection) (w : World) :
  ready c = Pending ->
  status (fst (transport w (log w) (fetch_request c))) <> 200 ->
  Collection_settle c w =
    (Returned (with_ready c Fulfilled),
     later w (snd (transport w (log w) (fetch_request c)))).
Proof.
  intros Hr Hs. unfold Collection_settle, bind, http_await. rewrite Hr.
  destruct (transport w (log w) (fetch_request c)) as [response took] eqn:Ht.
  cbn in Hs |- *. unfold updateCache_resume.
  destruct (Z.eqb_spec (status response) 200) as [E|E]; [contradiction|].
  reflexivity.
Qed.

(** The constructor without data followed by the arrival of the answer is
    one run of [updateCache] that settles the barrier. *)
Lemma Collection_settle_is_updateCache (c : Collection) (w : World) :
  ready c = Pending ->
  (let* _ := http_send (fetch_request c) in Collection_settle c) w
    = match updateCache c w with
      | (Returned c', w') => (Returned (with_ready c' Fulfilled), w')
      | (Threw e, w') => (Returned (with_ready c (Rejected e)), w')
      | (Suspended, w') => (Suspended, w')
      end.
Proof.
  intros Hr. unfold updateCache, sendRequest, Collection_settle, fetch_request.
  rewrite Hr. unfold bind, http_send, record. cbn.
  destruct (http_await _ _) as [[response| |] w1]; reflexivity.
Qed.

Lemma Collection_settle_barrier (c c' : Collection) (w w' : World) :
  Collection_settle c w = (Returned c', w') -> ready c' <> Pending.
Proof.
  unfold Collection_settle. destruct (ready c) eqn:Hr.
  - destruct (bind _ _ w) as [[c1|e|] w1]; intros [= <- <-]; discriminate.
  - intros [= <- <-]. rewrite Hr. discriminate.
  - intros [= <- <-]. rewrite Hr. discriminate.
Qed.

Lemma get_repeatedly_unset (c : Collection) :
  ready c = Fulfilled ->
  expiresAt c = None ->
  forall pauses w,
    fst (get_repeatedly pauses c w) = Returned (map (fun _ => cache c) pauses, c)
    /\ log (snd (get_repeatedly pauses c w)) = log w.
Proof.
  intros Hr He. induction pauses as [|pause rest IH]; intros w.
  - split; reflexivity.
  - cbn [get_repeatedly].
    rewrite (bind_returned (sleep pause) _ w tt (after w [] pause) eq_refl).
    rewrite (bind_returned (Collection_get c false) _ _ (cache c, c)
               (after w [] pause));
      [|apply Collection_get_fresh; [exact Hr|now rewrite He]].
    cbn [fst snd]. unfold bind.
    destruct (IH (after w [] pause)) as [Hv Hl].
    destruct (get_repeatedly rest c (after w [] pause)) as [[vs| |] w'];
      cbn in Hv; try discriminate.
    injection Hv as ->. cbn in Hl |- *. split; [reflexivity|].
    rewrite Hl. apply app_nil_r.
Qed.

(** C10. A node built without a value sends its first GET and waits.  When
    that GET is answered with a status other than 200 the barrier is
    satisfied with [expiresAt] and the value still unset.  From then on the
    test [Date.now() > expiresAt] is false at every time, and every [get]
    without [forceRefresh], however many follow and whenever they are made,
    returns the absent value, sends no request and leaves the node as it
    is. *)
Theorem failed_first_fetch_is_never_retried (p : string) (d : Connection)
    (w0 w1 : World) :
  let c0 := {| cache := None; path := p; db := d;
               expiresAt := None; ready := Pending |} in
  let c1 := {| cache := None; path := p; db := d;
               expiresAt := None; ready := Fulfilled |} in
  status (fst (transport w1 (log w1) (fetch_request c0))) <> 200 ->
  Collection_new p d None w0 = (Returned c0, logged w0 [Sent (fetch_request c0)])
  /\ Collection_settle c0 w1
     = (Returned c1, later w1 (snd (transport w1 (log w1) (fetch_request c0))))
  /\ (forall now, expired now (expiresAt c1) = false)
  /\ (forall w2, Collection_get c1 false w2 = (Returned (None, c1), w2))
  /\ (forall pauses w2,
        fst (get_repeatedly pauses c1 w2)
          = Returned (map (fun _ => None) pauses, c1)
        /\ log (snd (get_repeatedly pauses c1 w2)) = log w2).
Proof.
  intros c0 c1 Hs. split; [|split; [|split; [|split]]].
  - now apply Collection_new_falsy.
  - now rewrite (Collection_settle_failed c0 w1 eq_refl Hs).
  - reflexivity.
  - intros w2. now apply Collection_get_fresh.
  - intros pauses w2. now apply (get_repeatedly_unset c1).
Qed.

(** ** The store controller *)

Lemma RealTimeDB_get_hit (d : RealTimeDB) (p : string) (x : Cached) (w : World) :
  cachedCollections d !! p = Some x ->
  RealTimeDB_get d p w = (Returned (Some x, d), w).
Proof.
  intros Hx. unfold RealTimeDB_get. now rewrite Hx.
Qed.

Lemma RealTimeDB_get_scalar (d : RealTimeDB) (p : string) (v : JSON) (w : World) :
  let r := build_request (connection d) p "Get" [] None in
  cachedCollections d !! p = None ->
  status (fst (reply w r)) = 200 ->
  JSON_parse (body (fst (reply w r))) = Some v ->
  is_object v = false ->
  RealTimeDB_get d p w =
    (Returned (Some (CachedScalar v),
               {| connection := connection d;
                  readyPromise := readyPromise d;
                  cachedCollections :=
                    <[p := CachedScalar v]> (cachedCollections d) |}),
     after w [Sent r] (snd (reply w r))).
Proof.
  cbn. intros Hm Hs Hp Ho. unfold RealTimeDB_get. rewrite Hm.
  unfold bind at 1. rewrite sendRequest_run. cbn [fst snd]. rewrite Hs. cbn.
  unfold bind, parse. rewrite Hp. cbn. rewrite Ho. reflexivity.
Qed.

Lemma RealTimeDB_get_keeps_barrier (d d' : RealTimeDB) (p : string)
    (x : option Cached) (w w' : World) :
  RealTimeDB_get d p w = (Returned (x, d'), w') ->
  readyPromise d' = readyPromise d.
Proof.
  unfold RealTimeDB_get. destruct (cachedCollections d !! p) as [hit|].
  - intros [= _ <- _]. reflexivity.
  - unfold bind at 1. rewrite sendRequest_run. cbn [fst snd].
    destruct (negb _); [intros [= _ <- _]; reflexivity|].
    unfold bind at 1. unfold parse.
    destruct (JSON_parse _) as [b|]; [|discriminate]. cbn.
    unfold bind at 1.
    destruct (is_object b).
    + unfold bind at 1. destruct (objectToCollections _ _ _) as [[m| |] w1];
        try discriminate. cbn. intros [= _ <- _]. reflexivity.
    + cbn. intros [= _ <- _]. reflexivity.
Qed.


(** C4, as the code has it.  When [get(path)] misses the root table and
    the answer is 200 with a scalar body, the scalar is returned and stored
    under [path] in the root table, as an object-shaped result would be:
    one request is sent, and every later [get] of that path returns the
    stored scalar without a request. *)
Theorem scalar_result_is_memoized (d : RealTimeDB) (p : string) (v : JSON)
    (w : World) :
  let r := build_request (connection d) p "Get" [] None in
  cachedCollections d !! p = None ->
  status (fst (reply w r)) = 200 ->
  JSON_parse (body (fst (reply w r))) = Some v ->
  is_object v = false ->
  exists d',
    RealTimeDB_get d p w
      = (Returned (Some (CachedScalar v), d'), after w [Sent r] (snd (reply w r)))
    /\ cachedCollections d' = <[p := CachedScalar v]> (cachedCollections d)
    /\ forall w2, RealTimeDB_get d' p w2 = (Returned (Some (CachedScalar v), d'), w2).
Proof.
  intros r Hm Hs Hp Ho. eexists. split; [|split].
  - now apply RealTimeDB_get_scalar.
  - reflexivity.
  - intros w2. apply RealTimeDB_get_hit. cbn. apply lookup_insert_eq.
Qed.

Lemma initialize_settle_failed (d : RealTimeDB) (w : World) :
  let response := fst (transport w (log w) (validation_request (connection d))) in
  status response <> 200 ->
  exists e,
    RealTimeDB_settle d w
      = (Returned (d, Rejected e),
         later w (snd (transport w (log w) (validation_request (connection d)))))
    /\ (JSON_parse (body response) = None -> e = SyntaxError (body response))
    /\ (forall b, JSON_parse (body response) = Some b ->
          e = Error
                (if Z.eqb (status response) 404 then
                   "[RealTimeDB] Failed To Find Database: "
                     ++ quoted (databaseName (connection d))
                 else if Z.eqb (status response) 401 then
                   "[RealTimeDB] Permission Denied To The Database: "
                     ++ quoted (databaseName (connection d))
                 else
                   "[RealTimeDB] Error Validating Database Info: "
                     ++ String_of b)%string).
Proof.
  cbn. intros Hs. unfold RealTimeDB_settle, bind, http_await.
  destruct (transport w (log w) (validation_request (connection d)))
    as [response took] eqn:Ht.
  cbn in Hs |- *. unfold initialize_resume, bind, parse.
  destruct (JSON_parse (body response)) as [b|] eqn:Hp; cbn.
  - destruct (Z.eqb_spec (status response) 200) as [E|E]; [contradiction|]. cbn.
    destruct (Z.eqb (status response) 404); [|destruct (Z.eqb (status response) 401)];
      cbn; eexists; (split; [reflexivity|]); (split; [discriminate|]);
      intros b' [= <-]; reflexivity.
  - eexists. split; [reflexivity|]. split; [reflexivity|discriminate].
Qed.

(** The constructor followed by the arrival of the answer is one run of
    [initialize]; its failure is kept by the promise of that call. *)
Lemma RealTimeDB_settle_is_initialize (d : RealTimeDB) (w : World) :
  (let* _ := http_send (validation_request (connection d)) in
   RealTimeDB_settle d) w
    = match initialize d w with
      | (Returned d', w') => (Returned (d', Fulfilled), w')
      | (Threw e, w') => (Returned (d, Rejected e), w')
      | (Suspended, w') => (Suspended, w')
      end.
Proof.
  unfold initialize, sendRequest, RealTimeDB_settle, validation_request.
  unfold bind, http_send, record. cbn.
  destruct (http_await _ _) as [[response| |] w1]; reflexivity.
Qed.

(** C5, as the code has it.  The constructor leaves the readiness barrier
    pending and sends the validation request.  When that request is
    answered with a status other than 200, the call of [initialize] fails:
    with the not-found error for 404, the permission error for 401 and
    otherwise the validation error carrying the text of the parsed body,
    provided the body parses (with a syntax error when it does not).  The
    controller itself is left as it was: its barrier is neither satisfied
    nor rejected but still pending, [onReady] stays suspended, and no [get]
    changes the barrier. *)
Theorem failed_validation_leaves_barrier_pending (name secret : string)
    (ttl : option Z) (w0 w : World) :
  let d := {| connection := {| databaseSecret := trim secret;
                               databaseName := trim name;
                               ttl := default 300000 ttl |};
              readyPromise := Pending;
              cachedCollections := ∅ |} in
  let response := fst (transport w (log w) (validation_request (connection d))) in
  status response <> 200 ->
  RealTimeDB_new name secret ttl w0
    = (Returned d, logged w0 [Sent (validation_request (connection d))])
  /\ (exists e,
        RealTimeDB_settle d w
          = (Returned (d, Rejected e),
             later w (snd (transport w (log w) (validation_request (connection d)))))
        /\ (JSON_parse (body response) = None -> e = SyntaxError (body response))
        /\ (forall b, JSON_parse (body response) = Some b ->
              (status response = 404 ->
                 e = Error ("[RealTimeDB] Failed To Find Database: "
                              ++ quoted (trim name))%string)
              /\ (status response = 401 ->
                 e = Error ("[RealTimeDB] Permission Denied To The Database: "
                              ++ quoted (trim name))%string)
              /\ (status response <> 404 -> status response <> 401 ->
                 e = Error ("[RealTimeDB] Error Validating Database Info: "
                              ++ String_of b)%string)))
  /\ readyPromise d = Pending
  /\ (forall w2, onReady d w2 = (Suspended, w2))
  /\ (forall p w2 x d2 w3,
        RealTimeDB_get d p w2 = (Returned (x, d2), w3) -> readyPromise d2 = Pending).
Proof.
  intros d response Hs. split; [reflexivity|]. split; [|split; [|split]].
  - destruct (initialize_settle_failed d w Hs) as (e & Hrun & Hbad & Hmsg).
    exists e. split; [exact Hrun|]. split; [exact Hbad|].
    intros b Hp. specialize (Hmsg b Hp). fold response in Hmsg.
    split; [|split].
    + intros E. rewrite E in Hmsg. exact Hmsg.
    + intros E. rewrite E in Hmsg. exact Hmsg.
    + intros E1 E2.
      destruct (Z.eqb_spec (status response) 404) as [E|_]; [contradiction|].
      destruct (Z.eqb_spec (status response) 401) as [E|_]; [contradiction|].
      exact Hmsg.
  - reflexivity.
  - reflexivity.
  - intros p w2 x d2 w3 Hget.
    now rewrite (RealTimeDB_get_keeps_barrier _ _ _ _ _ _ Hget).
Qed.

(** ** objectToCollections *)

Lemma Collection_new_returns (p : string) (d : Connection) (v : option JSON)
    (w : World) :
  exists c w', Collection_new p d v w = (Returned c, w') /\ path c = p.
Proof.
  destruct (truthy v) eqn:Hv.
  - rewrite (Collection_new_truthy p d v w Hv). eauto.
  - rewrite (Collection_new_falsy p d v w Hv). eauto.
Qed.

Lemma collect_spec (object : JSON) (d : Connection) (keys : list string) :
  forall (m : CollectionMap) (w : World),
    (forall k c, m !! k = Some c -> path c = k) ->
    exists m' w',
      collect keys object d m w = (Returned m', w')
      /\ dom m' = dom m ∪ list_to_set keys
      /\ (forall k c, m' !! k = Some c -> path c = k).
Proof.
  induction keys as [|key rest IH]; intros m w Hm.
  - exists m, w. split; [reflexivity|]. split; [set_solver|exact Hm].
  - cbn [collect].
    destruct (Collection_new_returns key d (Object_get object key) w)
      as (c & w1 & Hnew & Hpath).
    rewrite (bind_returned _ _ _ _ _ Hnew).
    destruct (IH (<[key := c]> m) w1) as (m' & w' & Hrun & Hdom & Hpaths).
    { intros k c' Hk. destruct (decide (key = k)) as [<-|Hne].
      - rewrite lookup_insert_eq in Hk. now injection Hk as <-.
      - rewrite lookup_insert_ne in Hk by exact Hne. now apply Hm. }
    exists m', w'. split; [exact Hrun|]. split; [|exact Hpaths].
    rewrite Hdom, dom_insert_L. set_solver.
Qed.

(** The map [objectToCollections] builds has one node for each key of the
    object, and the path of the node under a key is that key. *)
Lemma objectToCollections_spec (object : JSON) (d : Connection) (w : World) :
  exists m w',
    objectToCollections object d w = (Returned m, w')
    /\ dom m = list_to_set (Object_keys object)
    /\ (forall k c, m !! k = Some c -> path c = k).
Proof.
  destruct (collect_spec object d (Object_keys object) ∅ w)
    as (m & w' & Hrun & Hdom & Hpaths).
  { intros k c Hk. now rewrite lookup_empty in Hk. }
  exists m, w'. split; [exact Hrun|]. split; [|exact Hpaths].
  rewrite Hdom. set_solver.
Qed.

(** [get] on the controller never stops at a barrier, whatever the state
    of [readyPromise]. *)
Lemma RealTimeDB_get_never_suspends (d : RealTimeDB) (p : string) (w : World) :
  fst (RealTimeDB_get d p w) <> Suspended.
Proof.
  unfold RealTimeDB_get. destruct (cachedCollections d !! p) as [hit|].
  - discriminate.
  - unfold bind at 1. rewrite sendRequest_run. cbn [fst snd].
    destruct (negb _); [discriminate|].
    unfold bind at 1. unfold parse.
    destruct (JSON_parse _) as [b|]; [|discriminate]. cbn.
    unfold bind at 1. destruct (is_object b); [|discriminate].
    unfold bind at 1.
    destruct (objectToCollections_spec b (connection d)
                (after w [Sent (build_request (connection d) p "Get" [] None)]
                   (snd (reply w (build_request (connection d) p "Get" [] None)))))
      as (m & w' & -> & _).
    discriminate.
Qed.

(** [set] on a node returns whatever the state of its barrier. *)
Lemma Collection_set_never_suspends (c : Collection) (v : JSON) (w : World) :
  exists c' w', Collection_set c v w = (Returned c', w') /\ ready c' = ready c.
Proof.
  rewrite Collection_set_run. eauto.
Qed.

End Properties.

(** * Further properties of the code *)

Section MoreProperties.
Context `{Runtime}.

(** ** objectToCollections *)

Lemma Collection_new_constructed (p : string) (d : Connection)
    (v : option JSON) (w : World) :
  exists w',
    Collection_new p d v w = (Returned (constructed_node p d v (clock w)), w')
    /\ clock w' = clock w
    /\ transport w' = transport w
    /\ requests (log w')
       = requests (log w)
           ++ (if truthy v then [] else [build_request d p "Get" [] None]).
Proof.
  unfold constructed_node. destruct (truthy v) eqn:Hv.
  - rewrite (Collection_new_truthy p d v w Hv). eexists. split; [reflexivity|].
    cbn. rewrite requests_app. cbn. auto.
  - rewrite (Collection_new_falsy p d v w Hv). eexists. split; [reflexivity|].
    cbn. rewrite requests_app. cbn. auto.
Qed.

Lemma collect_run (object : JSON) (d : Connection) (keys : list string) :
  forall (m : CollectionMap) (w : World),
    exists m' w',
      collect keys object d m w = (Returned m', w')
      /\ clock w' = clock w
      /\ transport w' = transport w
      /\ (forall k,
            m' !! k
            = if decide (k ∈ keys)
              then Some (constructed_node k d (Object_get object k) (clock w))
              else m !! k)
      /\ requests (log w')
         = requests (log w)
             ++ map (fun key => build_request d key "Get" [] None)
                  (filter (fun key => truthy (Object_get object key) = false) keys).
Proof.
  induction keys as [|key rest IH]; intros m w.
  - exists m, w. split; [reflexivity|]. split; [reflexivity|].
    split; [reflexivity|]. split.
    + intros k. rewrite decide_False; [reflexivity|]. apply not_elem_of_nil.
    + cbn. now rewrite app_nil_r.
  - cbn [collect].
    destruct (Collection_new_constructed key d (Object_get object key) w)
      as (w1 & Hnew & Hclock1 & Htr1 & Hreq1).
    rewrite (bind_returned _ _ _ _ _ Hnew).
    destruct (IH (<[key := constructed_node key d (Object_get object key) (clock w)]> m) w1)
      as (m' & w' & Hrun & Hclock & Htr & Hm & Hreq).
    exists m', w'. split; [exact Hrun|].
    split; [congruence|]. split; [congruence|]. split.
    + intros k. rewrite Hm, Hclock1.
      destruct (decide (k ∈ rest)) as [Hin|Hout].
      * rewrite decide_True; [reflexivity|]. now apply elem_of_cons; right.
      * destruct (decide (k = key)) as [->|Hne].
        -- rewrite lookup_insert_eq.
           rewrite decide_True; [reflexivity|]. now apply elem_of_cons; left.
        -- rewrite lookup_insert_ne by congruence.
           rewrite decide_False; [reflexivity|].
           intros [?|?]%elem_of_cons; contradiction.
    + rewrite Hreq, Hreq1, <- app_assoc. f_equal.
      destruct (truthy (Object_get object key)) eqn:Hv.
      * rewrite filter_cons_False; [reflexivity|]. now rewrite Hv.
      * rewrite filter_cons_True; [reflexivity|]. exact Hv.
Qed.

(** X4.  The map [objectToCollections] returns holds, under each key of the
    object and under no other key, the node the constructor builds at the
    time of the call from that key and the value under it. *)
Theorem objectToCollections_nodes (object : JSON) (d : Connection) (w : World) :
  exists m w',
    objectToCollections object d w = (Returned m, w')
    /\ clock w' = clock w
    /\ forall k,
         m !! k
         = if decide (k ∈ Object_keys object)
           then Some (constructed_node k d (Object_get object k) (clock w))
           else None.
Proof.
  destruct (collect_run object d (Object_keys object) ∅ w)
    as (m & w' & Hrun & Hclock & _ & Hm & _).
  exists m, w'. split; [exact Hrun|]. split; [exact Hclock|].
  intros k. rewrite Hm. now rewrite lookup_empty.
Qed.

(** X5.  [objectToCollections] sends one GET for each key whose value is
    not taken for data, in the order of the keys, each to the key as the
    path, and no other request. *)
Theorem objectToCollections_requests (object : JSON) (d : Connection) (w : World) :
  requests (log (snd (objectToCollections object d w)))
  = requests (log w)
      ++ map (fun key => build_request d key "Get" [] None) (unseeded_keys object).
Proof.
  destruct (collect_run object d (Object_keys object) ∅ w)
    as (m & w' & Hrun & _ & _ & _ & Hreq).
  unfold objectToCollections. rewrite Hrun. exact Hreq.
Qed.

(** ** The root table of the controller *)

Lemma RealTimeDB_get_miss_requests (d : RealTimeDB) (p : string) (w : World) :
  cachedCollections d !! p = None ->
  exists rest,
    requests (log (snd (RealTimeDB_get d p w)))
    = requests (log w) ++ build_request (connection d) p "Get" [] None :: rest.
Proof.
  intros Hm. unfold RealTimeDB_get. rewrite Hm.
  unfold bind at 1. rewrite sendRequest_run. cbn [fst snd].
  set (r := build_request (connection d) p "Get" [] None).
  set (w1 := after w [Sent r] (snd (reply w r))).
  assert (Hw1 : requests (log w1) = requests (log w) ++ [r]).
  { subst w1. cbn. now rewrite requests_app. }
  destruct (negb _).
  - exists []. cbn [snd ret]. exact Hw1.
  - unfold bind at 1. unfold parse.
    destruct (JSON_parse _) as [b|].
    + cbn. unfold bind at 1. destruct (is_object b).
      * unfold bind at 1.
        destruct (collect_run b (connection d) (Object_keys b) ∅ w1)
          as (m & w2 & Hrun & _ & _ & _ & Hreq).
        rewrite Hw1, <- app_assoc in Hreq.
        unfold objectToCollections. rewrite Hrun.
        cbn [fst snd ret]. rewrite Hreq. eauto.
      * exists []. cbn. exact Hw1.
    + exists []. cbn. exact Hw1.
Qed.

(** X1.  A [get] that misses the root table and is answered with a status
    other than 200 returns [undefined] after that one request and stores
    nothing: the controller is as before, so the next [get] of the path
    sends the request again. *)
Theorem failed_get_is_not_memoized (d : RealTimeDB) (p : string) (w : World) :
  let r := build_request (connection d) p "Get" [] None in
  cachedCollections d !! p = None ->
  status (fst (reply w r)) <> 200 ->
  RealTimeDB_get d p w = (Returned (None, d), after w [Sent r] (snd (reply w r)))
  /\ forall w2, exists rest,
       requests (log (snd (RealTimeDB_get d p w2))) = requests (log w2) ++ r :: rest.
Proof.
  intros r Hm Hs. split.
  - unfold RealTimeDB_get. rewrite Hm. unfold bind at 1.
    rewrite sendRequest_run. cbn [fst snd]. fold r.
    destruct (Z.eqb_spec (status (fst (reply w r))) 200) as [E|E]; [contradiction|].
    reflexivity.
  - intros w2. now apply RealTimeDB_get_miss_requests.
Qed.



(** ** The life of a cache node *)

Lemma Collection_settle_succeeded (c : Collection) (w : World) (b : JSON) :
  ready c = Pending ->
  let answer := transport w (log w) (fetch_request c) in
  status (fst answer) = 200 ->
  JSON_parse (body (fst answer)) = Some b ->
  let now := clock w + Z.of_N (snd answer) in
  Collection_settle c w
  = (Returned {| cache := Some b; path := path c; db := db c;
                 expiresAt := Some (now + ttl (db c)); ready := Fulfilled |},
     after w [WroteCache (path c) (Some b);
              WroteExpiresAt (path c) (now + ttl (db c))] (snd answer)).
Proof.
  intros Hr. cbn. intros Hs Hp.
  unfold Collection_settle, bind, http_await. rewrite Hr.
  destruct (transport w (log w) (fetch_request c)) as [response took] eqn:Ht.
  cbn in Hs, Hp |- *. unfold updateCache_resume. rewrite Hs. cbn.
  unfold parse, bind. rewrite Hp. cbn.
  destruct (is_object b); cbn; unfold with_ready, after; cbn;
    rewrite <- !app_assoc; reflexivity.
Qed.

Lemma Collection_get_not_expired (c : Collection) (w : World) :
  ready c = Fulfilled ->
  (forall t, expiresAt c = Some t -> clock w <= t) ->
  Collection_get c false w = (Returned (cache c, c), w).
Proof.
  intros Hr Ht. apply Collection_get_fresh; [exact Hr|].
  unfold expired. destruct (expiresAt c) as [t|]; [|reflexivity].
  apply Z.ltb_ge. now apply Ht.
Qed.

(** X6.  A node built without data whose first GET is answered 200 with a
    body that parses holds that body from the arrival of the answer on,
    with its barrier satisfied; settling sends nothing, and up to [ttl] ms
    after the arrival a [get] returns the body without a request. *)
Theorem lazy_node_serves_after_fetch (p : string) (d : Connection) (b : JSON)
    (w1 w2 : World) :
  let c0 := {| cache := None; path := p; db := d;
               expiresAt := None; ready := Pending |} in
  let answer := transport w1 (log w1) (fetch_request c0) in
  let arrival := clock w1 + Z.of_N (snd answer) in
  let c1 := {| cache := Some b; path := p; db := d;
               expiresAt := Some (arrival + ttl d); ready := Fulfilled |} in
  status (fst answer) = 200 ->
  JSON_parse (body (fst answer)) = Some b ->
  clock w2 <= arrival + ttl d ->
  (exists w1', Collection_settle c0 w1 = (Returned c1, w1')
               /\ requests (log w1') = requests (log w1))
  /\ Collection_get c1 false w2 = (Returned (Some b, c1), w2).
Proof.
  intros c0 answer arrival c1 Hs Hp Hle. split.
  - eexists. split.
    + apply (Collection_settle_succeeded c0 w1 b eq_refl Hs Hp).
    + cbn. rewrite requests_app. cbn. apply app_nil_r.
  - apply (Collection_get_not_expired c1 w2 eq_refl).
    intros t [= <-]. exact Hle.
Qed.

(** X7.  When the first GET of a node built without data is answered 200
    with a body that does not parse, the barrier of the node is rejected
    with the syntax error, and from then on every [get], forced or not,
    throws that error without sending a request. *)
Theorem malformed_first_fetch_poisons_get (c0 : Collection) (w1 : World) :
  let answer := transport w1 (log w1) (fetch_request c0) in
  let e := SyntaxError (body (fst answer)) in
  ready c0 = Pending ->
  status (fst answer) = 200 ->
  JSON_parse (body (fst answer)) = None ->
  Collection_settle c0 w1 = (Returned (with_ready c0 (Rejected e)), later w1 (snd answer))
  /\ forall forceRefresh w2,
       Collection_get (with_ready c0 (Rejected e)) forceRefresh w2 = (Threw e, w2).
Proof.
  cbn. intros Hr Hs Hp. split.
  - unfold Collection_settle, bind, http_await. rewrite Hr.
    destruct (transport w1 (log w1) (fetch_request c0)) as [response took] eqn:Ht.
    cbn in Hs, Hp |- *. unfold updateCache_resume. rewrite Hs. cbn.
    unfold parse, bind. rewrite Hp. reflexivity.
  - intros forceRefresh w2. reflexivity.
Qed.

(** X8.  On a node whose barrier is satisfied, a [get] made after [set(v)]
    at a time that is not later than [expiresAt] returns [v] and sends
    nothing; [set] leaves [expiresAt] and the barrier as they were. *)
Theorem get_after_set_returns_written (c : Collection) (v : JSON) (w w2 : World) :
  ready c = Fulfilled ->
  (forall t, expiresAt c = Some t -> clock w2 <= t) ->
  exists c' w',
    Collection_set c v w = (Returned c', w')
    /\ expiresAt c' = expiresAt c
    /\ ready c' = ready c
    /\ Collection_get c' false w2 = (Returned (Some v, c'), w2).
Proof.
  intros Hr Ht. rewrite Collection_set_run. eexists. eexists.
  split; [reflexivity|]. split; [reflexivity|]. split; [reflexivity|].
  apply (Collection_get_not_expired (holding c (Some v)) w2 Hr Ht).
Qed.

(** X9.  [set] does not renew the node: when the [get] after [set(v)] comes
    later than [expiresAt], it refreshes, and a 200 answer with the body [b]
    replaces [v] by [b]. *)
Theorem set_does_not_renew (c : Collection) (v b : JSON) (w w2 : World) (t : Z) :
  ready c = Fulfilled ->
  expiresAt c = Some t ->
  t < clock w2 ->
  let r := fetch_request c in
  status (fst (reply w2 r)) = 200 ->
  JSON_parse (body (fst (reply w2 r))) = Some b ->
  exists c' w' c'',
    Collection_set c v w = (Returned c', w')
    /\ cache c' = Some v
    /\ fst (Collection_get c' false w2) = Returned (Some b, c'')
    /\ cache c'' = Some b
    /\ requests (log (snd (Collection_get c' false w2))) = requests (log w2) ++ [r].
Proof.
  intros Hr He Hlt r Hs Hp. rewrite Collection_set_run.
  set (c' := holding c (Some v)).
  assert (Hgo : expired (clock w2) (expiresAt c') || false = true).
  { cbn. rewrite He. cbn. rewrite orb_false_r. now apply Z.ltb_lt. }
  pose proof (Collection_get_refresh c' w2 false Hr Hgo) as Hget.
  pose proof (updateCache_succeeded c' w2 b Hs Hp) as Hup.
  exists c'. eexists. eexists. split; [reflexivity|]. split; [reflexivity|].
  rewrite Hget. unfold value_after. split; [rewrite Hup; reflexivity|].
  split; [reflexivity|]. cbn [snd]. apply (updateCache_requests c' w2).
Qed.

(** X10.  After a forced [get] answered 200 with the body [b], the node is
    fresh for exactly [ttl] ms from the arrival of the answer: a [get] up to
    then returns [b] without a request, a [get] after then sends the GET
    again. *)
Theorem refreshed_node_is_fresh_for_ttl (c : Collection) (b : JSON) (w : World) :
  ready c = Fulfilled ->
  let r := fetch_request c in
  let arrival := clock w + Z.of_N (snd (reply w r)) in
  status (fst (reply w r)) = 200 ->
  JSON_parse (body (fst (reply w r))) = Some b ->
  exists c' w',
    Collection_get c true w = (Returned (Some b, c'), w')
    /\ expiresAt c' = Some (arrival + ttl (db c))
    /\ (forall w2, clock w2 <= arrival + ttl (db c) ->
          Collection_get c' false w2 = (Returned (Some b, c'), w2))
    /\ (forall w2, arrival + ttl (db c) < clock w2 ->
          requests (log (snd (Collection_get c' false w2)))
          = requests (log w2) ++ [r]).
Proof.
  intros Hr r arrival Hs Hp.
  rewrite (Collection_get_refresh c w true Hr (orb_true_r _)).
  unfold value_after. rewrite (updateCache_succeeded c w b Hs Hp). cbn [fst snd].
  eexists. eexists. split; [reflexivity|]. split; [reflexivity|]. split.
  - intros w2 Hle.
    apply (Collection_get_not_expired (refreshed c b arrival) w2 Hr).
    intros t [= <-]. exact Hle.
  - intros w2 Hlt.
    assert (Hgo : expired (clock w2) (expiresAt (refreshed c b arrival)) || false = true).
    { cbn. rewrite orb_false_r. now apply Z.ltb_lt. }
    rewrite (Collection_get_refresh (refreshed c b arrival) w2 false Hr Hgo).
    unfold value_after. cbn [snd].
    apply (updateCache_requests (refreshed c b arrival) w2).
Qed.

(** X11.  Two forced [get]s in a row whose GETs get the same 200 answer
    return the same value. *)
Theorem forced_get_twice_same_value (c c1 : Collection) (v1 : option JSON)
    (w w1 : World) :
  ready c = Fulfilled ->
  let r := fetch_request c in
  status (fst (reply w r)) = 200 ->
  Collection_get c true w = (Returned (v1, c1), w1) ->
  fst (reply w1 r) = fst (reply w r) ->
  exists c2 w2,
    Collection_get c1 true w1 = (Returned (v1, c2), w2) /\ cache c2 = cache c1.
Proof.
  intros Hr r Hs Hget Hsame.
  rewrite (Collection_get_refresh c w true Hr (orb_true_r _)) in Hget.
  unfold value_after in Hget.
  destruct (JSON_parse (body (fst (reply w r)))) as [b|] eqn:Hp.
  - rewrite (updateCache_succeeded c w b Hs Hp) in Hget. cbn in Hget.
    injection Hget as <- <- <-.
    set (c1 := refreshed c b (clock w + Z.of_N (snd (reply w r)))).
    set (w1 := after w _ _) in *.
    assert (Hr1 : ready c1 = Fulfilled) by exact Hr.
    rewrite (Collection_get_refresh c1 w1 true Hr1 (orb_true_r _)).
    unfold value_after.
    assert (Hs1 : status (fst (reply w1 (fetch_request c1))) = 200).
    { change (fetch_request c1) with r. now rewrite Hsame. }
    assert (Hp1 : JSON_parse (body (fst (reply w1 (fetch_request c1)))) = Some b).
    { change (fetch_request c1) with r. now rewrite Hsame. }
    rewrite (updateCache_succeeded c1 w1 b Hs1 Hp1). cbn [fst snd].
    eexists. eexists. split; reflexivity.
  - rewrite (updateCache_malformed c w Hs Hp) in Hget. discriminate.
Qed.

(** ** The request and the barrier of the controller *)

Lemma append_empty_r (s : string) : (s ++ "")%string = s.
Proof.
  induction s as [|a rest IH]; [reflexivity|].
  change (String a (rest ++ "")%string = String a rest). now rewrite IH.
Qed.

Lemma append_eq_empty (s1 s2 : string) :
  (s1 ++ s2)%string = ""%string -> s1 = ""%string /\ s2 = ""%string.
Proof. destruct s1; cbn; [auto|discriminate]. Qed.

Lemma concat_pairs_not_empty (sep : string) (f : string -> string)
    (options : QueryOptions) :
  options <> [] ->
  String.concat sep
    (map (fun '(key, value) => (f key ++ "=" ++ f value)%string) options)
  <> ""%string.
Proof.
  destruct options as [|[key value] rest]; [congruence|]. intros _.
  rewrite map_cons.
  destruct (map (fun '(key, value) => (f key ++ "=" ++ f value)%string) rest)
    as [|next tail].
  - change (f key ++ "=" ++ f value <> "")%string.
    intros [_ Hempty]%append_eq_empty. discriminate.
  - change ((f key ++ "=" ++ f value) ++ sep ++ String.concat sep (next :: tail)
            <> "")%string.
    intros [[_ Hempty]%append_eq_empty _]%append_eq_empty. discriminate.
Qed.

(** X12.  The request [sendRequest] builds: the method as given, the one
    content-type header, the URI made of the database name, the path and
    the secret, followed by the encoded options exactly when there are
    some; the body is left out when none or the empty string is given. *)
Theorem request_shape (d : Connection) (p m : string) (options : QueryOptions)
    (b : option string) :
  let r := build_request d p m options b in
  method r = m
  /\ headers r = [("Content-Type", "application/json")%string]
  /\ (options = [] ->
      uri r = ("https://" ++ databaseName d ++ ".firebaseio.com/" ++ p
                 ++ ".json?auth=" ++ databaseSecret d)%string)
  /\ (options <> [] ->
      uri r = ("https://" ++ databaseName d ++ ".firebaseio.com/" ++ p
                 ++ ".json?auth=" ++ databaseSecret d ++ "&"
                 ++ String.concat "&"
                      (map (fun '(key, value) =>
                              encodeURIComponent key ++ "="
                                ++ encodeURIComponent value) options))%string)
  /\ (request_body r = None <-> b = None \/ b = Some ""%string)
  /\ (forall text, request_body r = Some text -> b = Some text).
Proof.
  cbn zeta. split; [reflexivity|]. split; [reflexivity|].
  split; [|split; [|split]].
  - intros ->. unfold build_request, join_with. cbn [uri map String.concat].
    change (String.eqb "" "") with true. cbv iota.
    now rewrite append_empty_r.
  - intros Hne. unfold build_request, join_with. cbn [uri].
    pose proof (concat_pairs_not_empty "&" encodeURIComponent options Hne) as Hq.
    destruct (String.eqb_spec
                (String.concat "&"
                   (map (fun '(key, value) =>
                           (encodeURIComponent key ++ "="
                              ++ encodeURIComponent value)%string) options)) "")
      as [E|_]; [contradiction|].
    reflexivity.
  - cbn. destruct b as [text|]; [|tauto].
    destruct (String.eqb_spec text "") as [->|Hne].
    + tauto.
    + split; [discriminate|]. intros [E|[= E]]; [discriminate|contradiction].
  - intros text. cbn. destruct b as [text'|]; [|discriminate].
    destruct (String.eqb text' ""); [discriminate|]. intros [= ->]. reflexivity.
Qed.

(** X13.  When the answer to the validation request arrives, the barrier of
    the controller is satisfied exactly when the status is 200 and the body
    parses; an answer 200 whose body does not parse fails [initialize] with
    the syntax error and leaves the barrier pending.  With the barrier
    satisfied [onReady] calls the callback; with the barrier pending it
    stays suspended and the callback is not called. *)
Theorem barrier_satisfied_iff_valid_answer (d : RealTimeDB) (w : World) :
  readyPromise d = Pending ->
  let answer := fst (transport w (log w) (validation_request (connection d))) in
  exists d' outcome w',
    RealTimeDB_settle d w = (Returned (d', outcome), w')
    /\ log w' = log w
    /\ (readyPromise d' = Fulfilled
        <-> status answer = 200 /\ JSON_parse (body answer) <> None)
    /\ (status answer = 200 -> JSON_parse (body answer) = None ->
        outcome = Rejected (SyntaxError (body answer)))
    /\ (readyPromise d' = Fulfilled \/ readyPromise d' = Pending)
    /\ (readyPromise d' = Fulfilled ->
        forall callback w2, onReady_then d' callback w2 = callback w2)
    /\ (readyPromise d' = Pending ->
        forall callback w2, onReady_then d' callback w2 = (Suspended, w2)).
Proof.
  intros Hr. cbn zeta.
  assert (Hcall : forall d' : RealTimeDB,
            (readyPromise d' = Fulfilled ->
             forall callback w2, onReady_then d' callback w2 = callback w2)
            /\ (readyPromise d' = Pending ->
                forall callback w2, onReady_then d' callback w2 = (Suspended, w2))).
  { intros d'. split; intros Hd callback w2; unfold onReady_then, bind;
      rewrite Hd; cbn; [destruct (callback w2) as [[[]| |] w3]|]; reflexivity. }
  unfold RealTimeDB_settle, bind, http_await.
  destruct (transport w (log w) (validation_request (connection d)))
    as [response took] eqn:Ht.
  cbn [fst snd]. unfold initialize_resume, bind, parse.
  destruct (JSON_parse (body response)) as [b|] eqn:Hp; cbn.
  - destruct (Z.eqb_spec (status response) 200) as [E|E]; cbn.
    + eexists. eexists. eexists. split; [reflexivity|]. cbn. rewrite Hr. cbn.
      split; [reflexivity|]. split; [split; [intros _; split; [exact E|discriminate]|reflexivity]|].
      split; [discriminate|]. split; [now left|].
      apply (Hcall {| connection := connection d; readyPromise := Fulfilled;
                      cachedCollections := cachedCollections d |}).
    + assert (Hfail : exists e,
                (if Z.eqb (status response) 404 then
                   throw (Error ("[RealTimeDB] Failed To Find Database: "
                                   ++ quoted (databaseName (connection d)))%string)
                 else if Z.eqb (status response) 401 then
                   throw (Error ("[RealTimeDB] Permission Denied To The Database: "
                                   ++ quoted (databaseName (connection d)))%string)
                 else
                   throw (Error ("[RealTimeDB] Error Validating Database Info: "
                                   ++ String_of b)%string))
                  (later w took)
                = (@Threw RealTimeDB e, later w took)).
      { destruct (Z.eqb (status response) 404); [|destruct (Z.eqb (status response) 401)];
          eexists; reflexivity. }
      destruct Hfail as (e & Hfail). unfold later in Hfail. rewrite Hfail.
      exists d, (Rejected e). eexists. split; [reflexivity|]. cbn.
      split; [reflexivity|].
      split; [split; [congruence|intros [? _]; contradiction]|].
      split; [contradiction|]. split; [now right|]. apply Hcall.
  - exists d, (Rejected (SyntaxError (body response))). eexists.
    split; [reflexivity|]. cbn. split; [reflexivity|].
    split; [split; [congruence|intros [_ ?]; contradiction]|].
    split; [reflexivity|]. split; [now right|]. apply Hcall.
Qed.

End MoreProperties.

(** * Properties of Firebase.ts *)

Section FirebaseProperties.
Context `{Runtime}.

(** The session [s] once the transport's world has become [w]. *)
Lemma Firebase_sendRequest_run (db : Firebase.RealTimeDB) (p m : string)
    (o : QueryOptions) (b : option string) (s : Firebase.Session) :
  let r := Firebase.build_request db p m o b in
  Firebase.sendRequest db p m o b s
  = (Returned (fst (reply (Firebase.world s) r)),
     {| Firebase.world :=
          after (Firebase.world s) [Sent r] (snd (reply (Firebase.world s) r));
        Firebase.console := Firebase.console s;
        Firebase.emitted := Firebase.emitted s |}).
Proof.
  cbn. unfold Firebase.sendRequest, Firebase.lift, bind, http_send, http_await,
    record, reply, after. cbn.
  destruct (transport (Firebase.world s)
              (log (Firebase.world s) ++ [Sent (Firebase.build_request db p m o b)])
              (Firebase.build_request db p m o b)) as [response took].
  reflexivity.
Qed.

(** X14.  The constructor leaves the controller not ready.  When the
    validation request is answered with a status other than 200, or with a
    body that does not parse, [validate] fails, no signal is emitted and
    the controller stays not ready: every [get] and every [set] on it
    throws the not-ready error and sends nothing. *)
Theorem failed_validate_blocks_every_call (name secret : string)
    (s0 s : Firebase.Session) :
  let db := {| Firebase.databaseSecret := trim secret;
               Firebase.databaseName := trim name;
               Firebase._ready := false |} in
  let answer := fst (transport (Firebase.world s) (log (Firebase.world s))
                       (Firebase.validation_request db)) in
  status answer <> 200 \/ JSON_parse (body answer) = None ->
  fst (Firebase.new name secret s0) = Returned db
  /\ (exists e s',
        Firebase.settle db s = (Returned (db, Rejected e), s')
        /\ Firebase.emitted s' = Firebase.emitted s
        /\ Firebase.console s' = Firebase.console s)
  /\ (forall p o s2, Firebase.get db p o s2 = (Threw Firebase.not_ready, s2))
  /\ (forall p v o s2, Firebase.set db p v o s2 = (Threw Firebase.not_ready, s2)).
Proof.
  intros db answer Hbad. split; [reflexivity|]. split; [|split; reflexivity].
  unfold Firebase.settle, Firebase.andThen, Firebase.lift, http_await.
  subst answer.
  destruct (transport (Firebase.world s) (log (Firebase.world s))
              (Firebase.validation_request db)) as [response took].
  cbn [fst snd] in Hbad |- *. unfold Firebase.validate_resume.
  destruct (JSON_parse (body response)) as [b|].
  - destruct Hbad as [Hs|Hp]; [|discriminate].
    destruct (Z.eqb_spec (status response) 200) as [E|_]; [contradiction|]. cbn.
    destruct (Z.eqb (status response) 404); [|destruct (Z.eqb (status response) 401)];
      cbn; eexists; eexists; (split; [reflexivity|]); split; reflexivity.
  - cbn. eexists. eexists. split; [reflexivity|]. split; reflexivity.
Qed.

(** X15.  When the validation request is answered 200 with a body that
    parses, the controller becomes ready and exactly one signal, the ready
    signal carrying the ready controller, is emitted; name and secret stay
    as they are and nothing is written to the console. *)
Theorem validate_success_emits_ready (db : Firebase.RealTimeDB) (b : JSON)
    (s : Firebase.Session) :
  let answer := transport (Firebase.world s) (log (Firebase.world s))
                  (Firebase.validation_request db) in
  let db' := {| Firebase.databaseSecret := Firebase.databaseSecret db;
                Firebase.databaseName := Firebase.databaseName db;
                Firebase._ready := true |} in
  status (fst answer) = 200 ->
  JSON_parse (body (fst answer)) = Some b ->
  Firebase.settle db s
  = (Returned (db', Fulfilled),
     {| Firebase.world := later (Firebase.world s) (snd answer);
        Firebase.console := Firebase.console s;
        Firebase.emitted := Firebase.emitted s ++ [Firebase.ReadyEventSignal db'] |}).
Proof.
  cbn zeta. intros Hs Hp.
  unfold Firebase.settle, Firebase.andThen, Firebase.lift, http_await.
  destruct (transport (Firebase.world s) (log (Firebase.world s))
              (Firebase.validation_request db)) as [response took].
  cbn [fst snd] in Hs, Hp |- *. unfold Firebase.validate_resume.
  rewrite Hp, Hs. reflexivity.
Qed.

Lemma Firebase_set_run (db : Firebase.RealTimeDB) (p : string)
    (v : JSON) (o : option QueryOptions) (s : Firebase.Session) :
  Firebase._ready db = true ->
  let r := Firebase.build_request db p "Put" (default [] o)
             (Some (Firebase.dataString v)) in
  Firebase.set db p v o s
  = (Returned (Z.eqb (status (fst (reply (Firebase.world s) r))) 200),
     {| Firebase.world :=
          after (Firebase.world s) [Sent r] (snd (reply (Firebase.world s) r));
        Firebase.console := Firebase.console s;
        Firebase.emitted := Firebase.emitted s |}).
Proof.
  intros Hr. cbn zeta. unfold Firebase.set. rewrite Hr. cbn [negb].
  unfold Firebase.andThen. rewrite Firebase_sendRequest_run. cbn [fst snd].
  destruct (Z.eqb _ 200); reflexivity.
Qed.

(** X16.  On a ready controller [set] sends exactly one request, a PUT for
    the path, and returns [true] when the answer is 200 and [false]
    otherwise; it never throws, and it touches neither the console nor the
    signals. *)
Theorem legacy_set_reports_status (db : Firebase.RealTimeDB) (p : string)
    (v : JSON) (o : option QueryOptions) (s : Firebase.Session) :
  Firebase._ready db = true ->
  exists r s',
    Firebase.set db p v o s
      = (Returned (Z.eqb (status (fst (reply (Firebase.world s) r))) 200), s')
    /\ method r = "Put"%string
    /\ uri r = uri (Firebase.build_request db p "Put" (default [] o) None)
    /\ requests (log (Firebase.world s')) = requests (log (Firebase.world s)) ++ [r]
    /\ Firebase.console s' = Firebase.console s
    /\ Firebase.emitted s' = Firebase.emitted s.
Proof.
  intros Hr. rewrite (Firebase_set_run db p v o s Hr).
  eexists. eexists. split; [reflexivity|]. split; [reflexivity|].
  split; [reflexivity|]. cbn. rewrite requests_app. auto.
Qed.

(** X17.  [set] sends a string as it is, without quotes, and for the empty
    string it sends a PUT without a body. *)
Theorem legacy_set_sends_string_raw (db : Firebase.RealTimeDB) (p text : string)
    (o : option QueryOptions) (s : Firebase.Session) :
  Firebase._ready db = true ->
  exists r,
    requests (log (Firebase.world (snd (Firebase.set db p (JString text) o s))))
    = requests (log (Firebase.world s)) ++ [r]
    /\ method r = "Put"%string
    /\ request_body r = (if String.eqb text "" then None else Some text).
Proof.
  intros Hr. rewrite (Firebase_set_run db p (JString text) o s Hr).
  eexists. cbn [snd Firebase.world after log]. rewrite requests_app.
  split; [reflexivity|]. split; reflexivity.
Qed.

(** X18.  On a ready controller [get] sends exactly one GET.  An answer
    other than 200 gives [undefined] and writes nothing to the console.  An
    answer 200 is first written to the console; then its parsed body is
    returned, or the syntax error is thrown when it does not parse. *)
Theorem legacy_get_outcomes (db : Firebase.RealTimeDB) (p : string)
    (o : option QueryOptions) (s : Firebase.Session) :
  Firebase._ready db = true ->
  let r := Firebase.build_request db p "Get" (default [] o) None in
  let answer := fst (reply (Firebase.world s) r) in
  let w' := after (Firebase.world s) [Sent r] (snd (reply (Firebase.world s) r)) in
  (status answer <> 200 ->
     Firebase.get db p o s
     = (Returned None,
        {| Firebase.world := w'; Firebase.console := Firebase.console s;
           Firebase.emitted := Firebase.emitted s |}))
  /\ (forall b, status answer = 200 -> JSON_parse (body answer) = Some b ->
       Firebase.get db p o s
       = (Returned (Some b),
          {| Firebase.world := w';
             Firebase.console := Firebase.console s ++ [body answer];
             Firebase.emitted := Firebase.emitted s |}))
  /\ (status answer = 200 -> JSON_parse (body answer) = None ->
       Firebase.get db p o s
       = (Threw (SyntaxError (body answer)),
          {| Firebase.world := w';
             Firebase.console := Firebase.console s ++ [body answer];
             Firebase.emitted := Firebase.emitted s |})).
Proof.
  intros Hr. cbn zeta.
  assert (Hrun :
            Firebase.get db p o s
            = (if negb (Z.eqb (status (fst (reply (Firebase.world s)
                                               (Firebase.build_request db p "Get"
                                                  (default [] o) None)))) 200)
               then Firebase.done None
               else Firebase.andThen
                      (Firebase.console_log
                         (body (fst (reply (Firebase.world s)
                                       (Firebase.build_request db p "Get"
                                          (default [] o) None)))))
                      (fun _ =>
                         match JSON_parse
                                 (body (fst (reply (Firebase.world s)
                                               (Firebase.build_request db p "Get"
                                                  (default [] o) None)))) with
                         | Some b => Firebase.done (Some b)
                         | None =>
                             Firebase.fail
                               (SyntaxError
                                  (body (fst (reply (Firebase.world s)
                                                (Firebase.build_request db p "Get"
                                                   (default [] o) None)))))
                         end))
                {| Firebase.world :=
                     after (Firebase.world s)
                       [Sent (Firebase.build_request db p "Get" (default [] o) None)]
                       (snd (reply (Firebase.world s)
                               (Firebase.build_request db p "Get" (default [] o) None)));
                   Firebase.console := Firebase.console s;
                   Firebase.emitted := Firebase.emitted s |}).
  { unfold Firebase.get. rewrite Hr. cbn [negb].
    unfold Firebase.andThen at 1. rewrite Firebase_sendRequest_run. reflexivity. }
  split; [|split].
  - intros Hs. rewrite Hrun.
    destruct (Z.eqb_spec (status (fst (reply (Firebase.world s)
                (Firebase.build_request db p "Get" (default [] o) None)))) 200)
      as [E|_]; [contradiction|]. reflexivity.
  - intros b Hs Hp. rewrite Hrun, Hs. cbn [Z.eqb Pos.eqb negb].
    unfold Firebase.andThen, Firebase.console_log. cbn. rewrite Hp. reflexivity.
  - intros Hs Hp. rewrite Hrun, Hs. cbn [Z.eqb Pos.eqb negb].
    unfold Firebase.andThen, Firebase.console_log. cbn. rewrite Hp. reflexivity.
Qed.

End FirebaseProperties.

(** * The properties on the sample store *)

Import Sample.
#[local] Existing Instance sample_runtime.

(** A refresh of [count_node] answered 500, and one answered 200 with the
    body 2 five ms after time 1001. *)
Lemma refresh_swallows_failure_witness :
  status (fst (reply (failing 1001) (fetch_request count_node))) = 500
  /\ updateCache count_node (failing 1001)
     = (Returned count_node, after (failing 1001) [Sent (get_request "count")] 5)
  /\ status (fst (reply (online 1001) (fetch_request count_node))) = 200
  /\ updateCache count_node (online 1001)
     = (Returned {| cache := Some (JNumber 2); path := "count"; db := conn;
                    expiresAt := Some 301006; ready := Fulfilled |},
        after (online 1001)
          [Sent (get_request "count"); WroteCache "count" (Some (JNumber 2));
           WroteExpiresAt "count" 301006] 5).
Proof.
  destruct (refresh_swallows_failure count_node) as (Hfail & Hok & _).
  split; [reflexivity|]. split.
  - apply (Hfail (failing 1001)). vm_compute. discriminate.
  - split; [reflexivity|]. apply (Hok (online 1001) (JNumber 2)); reflexivity.
Defined.

(** [count_node] expires at 1000: a [get] at 1001 refreshes once, a [get] at
    1000 does not. *)
Lemma get_refreshes_iff_stale_witness :
  (Collection_get count_node false (online 1001)
     = value_after (updateCache count_node (online 1001))
   /\ requests (log (snd (Collection_get count_node false (online 1001))))
      = [get_request "count"])
  /\ Collection_get count_node false (online 1000)
     = (Returned (Some (JNumber 1), count_node), online 1000).
Proof.
  split.
  - destruct (get_refreshes_iff_stale count_node (online 1001) false eq_refl)
      as [Hstale _].
    destruct Hstale as (Hget & Hone & _).
    + left. exists 1000. split; [reflexivity|]. cbn. lia.
    + split; [exact Hget | exact Hone].
  - destruct (get_refreshes_iff_stale count_node (online 1000) false eq_refl)
      as [_ Hfresh].
    apply Hfresh. split; [|reflexivity].
    exists 1000. split; [reflexivity|]. cbn. lia.
Defined.

(** [count_node], expired at 1001, is refreshed while the store answers
    500; the next [get] sends the GET a second time. *)
Lemma failed_refresh_stays_expired_witness :
  updateCache count_node (failing 1001)
    = (Returned count_node, after (failing 1001) [Sent (get_request "count")] 5)
  /\ requests
       (log (snd (Collection_get count_node false
                    (after (failing 1001) [Sent (get_request "count")] 5))))
     = [get_request "count"; get_request "count"].
Proof.
  assert (Hs : status (fst (reply (failing 1001) (fetch_request count_node))) <> 200).
  { vm_compute. discriminate. }
  assert (Hlt : 1000 < clock (failing 1001)) by (cbn; lia).
  destruct (failed_refresh_stays_expired count_node (failing 1001) 1000
              eq_refl eq_refl Hlt Hs) as (Hrun & _ & Hnext).
  split; [exact Hrun|].
  apply (Hnext (after (failing 1001) [Sent (get_request "count")] 5)).
  apply Z.leb_le. reflexivity.
Defined.

(** The first fetch of a node for "count" is answered 500; reading the
    node long afterwards sends nothing, although the store would answer. *)
Lemma failed_first_fetch_is_never_retried_witness :
  status (fst (transport (failing 0) [Sent (get_request "count")]
                 (get_request "count"))) = 500
  /\ Collection_get unset_node false (online 999999)
     = (Returned (None, unset_node), online 999999)
  /\ fst (get_repeatedly [0; 400000; 400000]%N unset_node (online 0))
     = Returned ([None; None; None], unset_node)
  /\ log (snd (get_repeatedly [0; 400000; 400000]%N unset_node (online 0))) = [].
Proof.
  split; [reflexivity|].
  assert (Hs : status (fst (transport (logged (failing 0) [Sent (get_request "count")])
                              (log (logged (failing 0) [Sent (get_request "count")]))
                              (fetch_request
                                 {| cache := None; path := "count"; db := conn;
                                    expiresAt := None; ready := Pending |}))) <> 200).
  { vm_compute. discriminate. }
  destruct (failed_first_fetch_is_never_retried "count" conn (failing 0)
              (logged (failing 0) [Sent (get_request "count")]) Hs)
    as (_ & _ & _ & Hget & Hall).
  split; [apply (Hget (online 999999))|].
  destruct (Hall [0; 400000; 400000]%N (online 0)) as [Hvalues Hlog].
  split; [exact Hvalues | exact Hlog].
Defined.

(** The scalar "Steve" read through a validated controller. *)
Lemma scalar_result_is_memoized_witness :
  exists d',
    RealTimeDB_get controller "users/steve/name" (online 0)
      = (Returned (Some (CachedScalar (JString "Steve")), d'),
         after (online 0) [Sent (get_request "users/steve/name")] 5)
    /\ cachedCollections d' !! "users/steve/name"
       = Some (CachedScalar (JString "Steve")).
Proof.
  destruct (scalar_result_is_memoized controller "users/steve/name"
              (JString "Steve") (online 0))
    as (d' & Hrun & Hcache & _); try reflexivity.
  exists d'. split; [exact Hrun|]. rewrite Hcache. apply lookup_insert_eq.
Defined.

(** The database does not exist: the validation request is answered 404. *)
Lemma failed_validation_leaves_barrier_pending_witness :
  RealTimeDB_new "proj-default-rtdb" "abc" None (missing 0)
    = (Returned new_controller, logged (missing 0) [Sent validation])
  /\ RealTimeDB_settle new_controller (logged (missing 0) [Sent validation])
     = (Returned
          (new_controller,
           Rejected (Error ("[RealTimeDB] Failed To Find Database: "
                              ++ quoted "proj-default-rtdb")%string)),
        later (logged (missing 0) [Sent validation]) 5)
  /\ onReady new_controller (later (logged (missing 0) [Sent validation]) 5)
     = (Suspended, later (logged (missing 0) [Sent validation]) 5).
Proof.
  assert (Hs : status (fst (transport (logged (missing 0) [Sent validation])
                              (log (logged (missing 0) [Sent validation]))
                              (validation_request conn))) <> 200).
  { vm_compute. discriminate. }
  destruct (failed_validation_leaves_barrier_pending "proj-default-rtdb" "abc" None
              (missing 0) (logged (missing 0) [Sent validation]) Hs)
    as (Hnew & (e & Hrun & _ & Hmsg) & _ & Hwait & _).
  split; [exact Hnew|]. split; [|apply Hwait].
  destruct (Hmsg JNull eq_refl) as (H404 & _).
  rewrite (H404 eq_refl) in Hrun. exact Hrun.
Defined.

(** ** Where the code departs from the specification *)

(** C1 on the sample store.  The node holds 1 and [set(2)] is called while
    the store answers 500.  The PUT that leaves carries the old value 1, not
    2; its status is not looked at; [set] returns normally and the node
    holds 2. *)
Theorem set_ignores_failed_write :
  status (fst (reply (failing 10) (put_request "count" "1"))) = 500
  /\ Collection_set count_node (JNumber 2) (failing 10)
     = (Returned {| cache := Some (JNumber 2); path := "count"; db := conn;
                    expiresAt := Some 1000; ready := Fulfilled |},
        after (failing 10)
          [Sent (put_request "count" "1"); WroteCache "count" (Some (JNumber 2))] 5).
Proof. split; reflexivity. Qed.

(** C2 on the sample store.  A [get] on the controller made right after the
    constructor returns the value while the controller's barrier is still
    pending, and a [set] on a node made right after its constructor returns
    while the node's barrier is still pending. *)
Theorem calls_resolve_while_barrier_pending :
  (exists d w,
     (let* d := RealTimeDB_new "proj-default-rtdb" "abc" None in
      RealTimeDB_get d "users/steve/name") (online 0)
       = (Returned (Some (CachedScalar (JString "Steve")), d), w)
     /\ readyPromise d = Pending)
  /\ (exists c w,
       (let* c := Collection_new "count" conn None in
        Collection_set c (JNumber 2)) (online 0)
         = (Returned c, w)
       /\ ready c = Pending
       /\ cache c = Some (JNumber 2)).
Proof.
  split.
  - eexists. eexists. split; [vm_compute; reflexivity|reflexivity].
  - eexists. eexists. split; [vm_compute; reflexivity|]. split; reflexivity.
Qed.

(** C3 on the sample store.  [get("users")] on an object with the child
    "steve" returns a map whose node under "steve" has the path "steve", so
    the node's own requests go to the URI of "steve", while the child lives
    at "users/steve".  And a child whose value is 0 is not pre-seeded: its
    node holds nothing, waits on its barrier and has sent a GET of its
    own. *)
Theorem child_path_is_the_key_alone :
  (exists m d w,
     RealTimeDB_get controller "users" (online 0)
       = (Returned (Some (CachedMap m), d), w)
     /\ dom m = {[ "steve" ]}
     /\ m !! "steve"
        = Some {| cache := Some steve_json; path := "steve"; db := conn;
                  expiresAt := Some 300005; ready := Fulfilled |}
     /\ (forall c, m !! "steve" = Some c ->
           path c <> "users/steve"
           /\ uri (fetch_request c) = url "steve"
           /\ uri (fetch_request c) <> url "users/steve"))
  /\ (exists m d w,
       RealTimeDB_get controller "counters" (online 0)
         = (Returned (Some (CachedMap m), d), w)
       /\ m !! "visits"
          = Some {| cache := None; path := "visits"; db := conn;
                    expiresAt := None; ready := Pending |}
       /\ requests (log w) = [get_request "counters"; get_request "visits"]).
Proof.
  split.
  - eexists. eexists. eexists. split; [vm_compute; reflexivity|].
    split; [reflexivity|]. split; [reflexivity|].
    intros c Hc. vm_compute in Hc. injection Hc as <-.
    split; [discriminate|]. split; [reflexivity|discriminate].
  - eexists. eexists. eexists. split; [vm_compute; reflexivity|].
    split; reflexivity.
Qed.

(** C7 on the sample store.  Each of the values null, false, 0 and the
    empty string handed to the constructor is dropped: the node holds
    nothing, [expiresAt] is unset, the barrier is pending and a GET for the
    node's path has been sent. *)
Theorem falsy_value_is_not_installed :
  Forall
    (fun v =>
       Collection_new "count" conn (Some v) (online 0)
         = (Returned {| cache := None; path := "count"; db := conn;
                        expiresAt := None; ready := Pending |},
            logged (online 0) [Sent (get_request "count")]))
    [JNull; JBool false; JNumber 0; JString ""].
Proof. repeat constructor. Qed.

(** The store answers 200 with the scalar "Steve": the first [get] stores
    the scalar under the path in the root table, and the second [get] of
    the same path returns it with the world, and so the log of requests,
    untouched. *)
Lemma scalar_result_counterexample :
  exists d' w',
    RealTimeDB_get controller "users/steve/name" (online 0)
      = (Returned (Some (CachedScalar (JString "Steve")), d'), w')
    /\ cachedCollections d' !! "users/steve/name" <> None
    /\ RealTimeDB_get d' "users/steve/name" w'
       = (Returned (Some (CachedScalar (JString "Steve")), d'), w')
    /\ requests (log (snd (RealTimeDB_get d' "users/steve/name" w')))
       = [get_request "users/steve/name"].
Proof.
  eexists. eexists. split; [vm_compute; reflexivity|].
  split; [discriminate|]. split; reflexivity.
Qed.

(** The validation request is answered 401.  [initialize] fails with the
    permission error, yet the controller's barrier is pending and not
    rejected, and a [get] made afterwards returns the value. *)
Lemma failed_validation_counterexample :
  status (fst (transport constructed (log constructed) validation)) = 401
  /\ RealTimeDB_new "proj-default-rtdb" "abc" None (refused 0)
     = (Returned new_controller, constructed)
  /\ RealTimeDB_settle new_controller constructed
     = (Returned
          (new_controller,
           Rejected (Error ("[RealTimeDB] Permission Denied To The Database: "
                              ++ quoted "proj-default-rtdb")%string)),
        later constructed 5)
  /\ readyPromise new_controller = Pending
  /\ (forall e, readyPromise new_controller <> Rejected e)
  /\ exists d' w',
       RealTimeDB_get new_controller "users/steve/name" (later constructed 5)
         = (Returned (Some (CachedScalar (JString "Steve")), d'), w').
Proof.
  split; [reflexivity|]. split; [reflexivity|].
  split; [reflexivity|]. split; [reflexivity|]. split; [discriminate|].
  eexists. eexists. vm_compute. reflexivity.
Qed.

(** * The further properties on the sample store *)

Import MoreSamples.

(** Nothing is stored under "nowhere": the GET is answered 404. *)
Lemma failed_get_is_not_memoized_witness :
  status (fst (reply (online 0) (get_request "nowhere"))) = 404
  /\ RealTimeDB_get controller "nowhere" (online 0)
     = (Returned (None, controller), after (online 0) [Sent (get_request "nowhere")] 5).
Proof.
  split; [reflexivity|].
  assert (Hs : status (fst (reply (online 0)
                              (build_request (connection controller) "nowhere" "Get" [] None)))
               <> 200).
  { vm_compute. discriminate. }
  destruct (failed_get_is_not_memoized controller "nowhere" (online 0) eq_refl Hs)
    as [Hrun _].
  exact Hrun.
Defined.



(** A node for "count" built without data; its GET is answered with 2 at
    time 5, and a [get] at time 300005 is served from the node. *)
Lemma lazy_node_serves_after_fetch_witness :
  Collection_get count_node_refreshed false (online 300005)
  = (Returned (Some (JNumber 2), count_node_refreshed), online 300005).
Proof.
  assert (Hle : clock (online 300005) <= 0 + Z.of_N 5 + ttl conn).
  { vm_compute. discriminate. }
  exact (proj2 (lazy_node_serves_after_fetch "count" conn (JNumber 2)
                  (logged (online 0) [Sent (get_request "count")]) (online 300005)
                  eq_refl eq_refl Hle)).
Defined.

(** The GET for "broken" is answered 200 with a text that is not JSON. *)
Lemma malformed_first_fetch_poisons_get_witness :
  Collection_settle broken_node (logged (garbled 0) [Sent (get_request "broken")])
    = (Returned (with_ready broken_node (Rejected (SyntaxError "{"))),
       later (logged (garbled 0) [Sent (get_request "broken")]) 5)
  /\ Collection_get (with_ready broken_node (Rejected (SyntaxError "{"))) true (garbled 9)
     = (Threw (SyntaxError "{"), garbled 9).
Proof.
  destruct (malformed_first_fetch_poisons_get broken_node
              (logged (garbled 0) [Sent (get_request "broken")]))
    as [Hsettle Hget]; try reflexivity.
  split; [exact Hsettle | exact (Hget true (garbled 9))].
Defined.

(** [count_node] is fresh until 1000: 7 is written at 0 and read at 1000. *)
Lemma get_after_set_returns_written_witness :
  exists c' w',
    Collection_set count_node (JNumber 7) (online 0) = (Returned c', w')
    /\ Collection_get c' false (online 1000) = (Returned (Some (JNumber 7), c'), online 1000).
Proof.
  destruct (get_after_set_returns_written count_node (JNumber 7) (online 0) (online 1000))
    as (c' & w' & Hset & _ & _ & Hget).
  - reflexivity.
  - intros t [= <-]. cbn. lia.
  - exists c', w'. split; [exact Hset | exact Hget].
Defined.

(** 7 is written to [count_node]; the read at 1001 refreshes and gets 2. *)
Lemma set_does_not_renew_witness :
  exists c' w' c'',
    Collection_set count_node (JNumber 7) (online 0) = (Returned c', w')
    /\ cache c' = Some (JNumber 7)
    /\ fst (Collection_get c' false (online 1001)) = Returned (Some (JNumber 2), c'').
Proof.
  destruct (set_does_not_renew count_node (JNumber 7) (JNumber 2) (online 0)
              (online 1001) 1000)
    as (c' & w' & c'' & Hset & Hcache & Hget & _); try reflexivity.
  exists c', w', c''. split; [exact Hset|]. split; [exact Hcache | exact Hget].
Defined.

(** [count_node] refreshed at time 5 serves the value up to time 300005. *)
Lemma refreshed_node_is_fresh_for_ttl_witness :
  exists c' w',
    Collection_get count_node true (online 0) = (Returned (Some (JNumber 2), c'), w')
    /\ expiresAt c' = Some 300005
    /\ Collection_get c' false (online 300005)
       = (Returned (Some (JNumber 2), c'), online 300005)
    /\ requests (log (snd (Collection_get c' false (online 300006))))
       = [get_request "count"].
Proof.
  destruct (refreshed_node_is_fresh_for_ttl count_node (JNumber 2) (online 0))
    as (c' & w' & Hget & Hexp & Hfresh & Hstale); try reflexivity.
  exists c', w'. split; [exact Hget|]. split; [exact Hexp|]. split.
  - apply Hfresh. apply Z.leb_le. reflexivity.
  - apply (Hstale (online 300006)). apply Z.ltb_lt. reflexivity.
Defined.

(** Two forced reads of "count" while the store holds 2. *)
Lemma forced_get_twice_same_value_witness :
  exists c2 w2,
    Collection_get count_node_refreshed true
      (after (online 0)
         [Sent (get_request "count"); WroteCache "count" (Some (JNumber 2));
          WroteExpiresAt "count" 300005] 5)
    = (Returned (Some (JNumber 2), c2), w2)
    /\ cache c2 = Some (JNumber 2).
Proof.
  apply (forced_get_twice_same_value count_node count_node_refreshed
           (Some (JNumber 2)) (online 0)); reflexivity.
Defined.

(** A shallow read of "users", and a PUT with the empty text as body. *)
Lemma request_shape_witness :
  uri (build_request conn "users" "Get" [("shallow", "true")] None)
    = (url "users" ++ "&shallow=true")%string
  /\ uri (build_request conn "users" "Get" [] None) = url "users"
  /\ request_body (build_request conn "users" "Put" [] (Some ""%string)) = None.
Proof.
  split; [|split].
  - destruct (request_shape conn "users" "Get" [("shallow", "true")%string] None)
      as (_ & _ & _ & Hsome & _).
    rewrite Hsome; [reflexivity|discriminate].
  - destruct (request_shape conn "users" "Get" [] None) as (_ & _ & Hnone & _).
    rewrite Hnone; reflexivity.
  - destruct (request_shape conn "users" "Put" [] (Some ""%string))
      as (_ & _ & _ & _ & Hbody & _).
    apply Hbody. now right.
Defined.

(** The validation request is answered 200 with "null": the barrier is
    satisfied and [onReady] runs its callback. *)
Lemma barrier_satisfied_iff_valid_answer_witness :
  exists d' outcome w',
    RealTimeDB_settle new_controller (logged (online 0) [Sent validation])
      = (Returned (d', outcome), w')
    /\ readyPromise d' = Fulfilled
    /\ onReady_then d' (record (Sent validation)) (online 9)
       = record (Sent validation) (online 9).
Proof.
  destruct (barrier_satisfied_iff_valid_answer new_controller
              (logged (online 0) [Sent validation]) eq_refl)
    as (d' & outcome & w' & Hrun & _ & Hiff & _ & _ & Hcall & _).
  assert (Hready : readyPromise d' = Fulfilled).
  { apply Hiff. split; [reflexivity|]. vm_compute. discriminate. }
  exists d', outcome, w'. split; [exact Hrun|]. split; [exact Hready|].
  apply (Hcall Hready).
Defined.

(** The database does not exist: [validate] fails and [get] and [set]
    refuse. *)
Lemma failed_validate_blocks_every_call_witness :
  Firebase.get legacy_new "users" None (session (missing 9))
    = (Threw Firebase.not_ready, session (missing 9))
  /\ Firebase.set legacy_new "count" (JNumber 2) None (session (missing 9))
     = (Threw Firebase.not_ready, session (missing 9)).
Proof.
  destruct (failed_validate_blocks_every_call "proj-default-rtdb" "abc"
              (session (missing 0))
              (session (logged (missing 0) [Sent validation])))
    as (_ & _ & Hget & Hset).
  - left. vm_compute. discriminate.
  - split; [apply (Hget "users"%string None) | apply (Hset "count"%string (JNumber 2) None)].
Defined.

(** The validation request is answered 200 with "null". *)
Lemma validate_success_emits_ready_witness :
  Firebase.settle legacy_new (session (logged (online 0) [Sent validation]))
  = (Returned (legacy_ready, Fulfilled),
     {| Firebase.world := later (logged (online 0) [Sent validation]) 5;
        Firebase.console := [];
        Firebase.emitted := [Firebase.ReadyEventSignal legacy_ready] |}).
Proof.
  apply (validate_success_emits_ready legacy_new JNull
           (session (logged (online 0) [Sent validation]))); reflexivity.
Defined.

(** A write of 2 to "count" while the store answers 500. *)
Lemma legacy_set_reports_status_witness :
  exists r s',
    Firebase.set legacy_ready "count" (JNumber 2) None (session (failing 0))
      = (Returned (Z.eqb (status (fst (reply (failing 0) r))) 200), s')
    /\ method r = "Put"%string
    /\ requests (log (Firebase.world s')) = [r].
Proof.
  destruct (legacy_set_reports_status legacy_ready "count" (JNumber 2) None
              (session (failing 0)) eq_refl)
    as (r & s' & Hset & Hm & _ & Hreq & _).
  exists r, s'. split; [exact Hset|]. split; [exact Hm | exact Hreq].
Defined.

(** A write of the empty string to "count". *)
Lemma legacy_set_sends_string_raw_witness :
  exists r,
    requests
      (log (Firebase.world
              (snd (Firebase.set legacy_ready "count" (JString "") None
                      (session (online 0))))))
    = [r]
    /\ request_body r = None.
Proof.
  destruct (legacy_set_sends_string_raw legacy_ready "count" "" None
              (session (online 0)) eq_refl)
    as (r & Hreq & _ & Hbody).
  exists r. split; [exact Hreq | exact Hbody].
Defined.

(** A read of "count" answered 200 with 2, and one answered 500. *)
Lemma legacy_get_outcomes_witness :
  Firebase.get legacy_ready "count" None (session (online 0))
    = (Returned (Some (JNumber 2)),
       {| Firebase.world := after (online 0) [Sent (get_request "count")] 5;
          Firebase.console := ["2"%string];
          Firebase.emitted := [] |})
  /\ Firebase.get legacy_ready "count" None (session (failing 0))
     = (Returned None,
        {| Firebase.world := after (failing 0) [Sent (get_request "count")] 5;
           Firebase.console := [];
           Firebase.emitted := [] |}).
Proof.
  split.
  - destruct (legacy_get_outcomes legacy_ready "count" None (session (online 0)) eq_refl)
      as (_ & Hok & _).
    apply (Hok (JNumber 2)); reflexivity.
  - destruct (legacy_get_outcomes legacy_ready "count" None (session (failing 0)) eq_refl)
      as (Hfail & _).
    apply Hfail. vm_compute. discriminate.
Defined.
